(** * CDC event distribution core: index sync and registration e-mail consumers

    A shallow embedding of [scripts/kafka_to_weaviate.py] and
    [email_service.py].  Python dictionaries are finite maps, the objects
    the code mutates live in an explicit store, exceptions are the [Raise]
    outcome of a small state-and-exception monad. *)

From Stdlib Require Import ZArith List String Ascii Bool Lia DecimalString.
From Stdlib Require Import SpecFloat.
From stdpp Require Import base option gmap strings list fin_maps.

Local Open Scope string_scope.
Local Open Scope list_scope.
Local Open Scope Z_scope.

(** ** Python values carried by a change record *)

(** A JSON scalar as [json.loads] yields it. *)
Inductive Value : Type :=
  | VNull
  | VBool (b : bool)
  | VInt (n : Z)
  | VFloat (f : spec_float)
  | VStr (s : string).

#[global] Instance spec_float_eq_dec : EqDecision spec_float.
Proof. solve_decision. Defined.

#[global] Instance Value_eq_dec : EqDecision Value.
Proof. solve_decision. Defined.

(** [isinstance(v, int)]: [bool] is a subclass of [int]. *)
Definition isinstance_int (v : Value) : bool :=
  match v with
  | VBool _ | VInt _ => true
  | _ => false
  end.

(** The integer an [int] instance stands for ([True] is 1). *)
Definition int_value (v : Value) : Z :=
  match v with
  | VInt n => n
  | VBool b => Z.b2z b
  | _ => 0
  end.

(** Truth value of a scalar, as [if v:] tests it. *)
Definition truthy (v : Value) : bool :=
  match v with
  | VNull => false
  | VBool b => b
  | VInt n => negb (n =? 0)
  | VFloat (S754_zero _) => false
  | VFloat _ => true
  | VStr s => negb (String.eqb s "")
  end.

(** ** The proleptic Gregorian calendar of [datetime] *)

Record Date : Type := mkDate { year : Z; month : Z; day : Z }.



(** Days of a common year before the first of month [m]. *)
Definition days_before_month_tbl (m : Z) : Z :=
  match m with
  | 1 => 0 | 2 => 31 | 3 => 59 | 4 => 90 | 5 => 120 | 6 => 151
  | 7 => 181 | 8 => 212 | 9 => 243 | 10 => 273 | 11 => 304 | 12 => 334
  | _ => 0
  end.

Definition days_in_month_tbl (m : Z) : Z :=
  match m with
  | 2 => 28
  | 4 | 6 | 9 | 11 => 30
  | _ => 31
  end.

(** Ordinal (1 = 0001-01-01) to date, the way [datetime] does it:
    400-, 100-, 4- and 1-year cycles, then a month estimate corrected
    from the table. *)
Definition ord2ymd (ordinal : Z) : Date :=
  let n := ordinal - 1 in
  let n400 := n / 146097 in
  let n := n mod 146097 in
  let n100 := n / 36524 in
  let n := n mod 36524 in
  let n4 := n / 1461 in
  let n := n mod 1461 in
  let n1 := n / 365 in
  let n := n mod 365 in
  let y := n400 * 400 + 1 + n100 * 100 + n4 * 4 + n1 in
  if (n1 =? 4) || (n100 =? 4) then mkDate (y - 1) 12 31
  else
    let leapyear := (n1 =? 3) && (negb (n4 =? 24) || (n100 =? 3)) in
    let m := Z.shiftr (n + 50) 5 in
    let preceding :=
      days_before_month_tbl m + Z.b2z ((2 <? m) && leapyear) in
    if n <? preceding then
      let m' := m - 1 in
      let preceding' :=
        preceding - (days_in_month_tbl m' + Z.b2z ((m' =? 2) && leapyear)) in
      mkDate y m' (n - preceding' + 1)
    else mkDate y m (n - preceding + 1).

Definition MINORDINAL : Z := 1.
Definition MAXORDINAL : Z := 3652059.

(** Ordinal of [datetime(1970, 1, 1)]. *)
Definition EPOCH_ORDINAL : Z := 719163.


(** [datetime(1970, 1, 1) + timedelta(days=n)]: [None] stands for the
    [OverflowError] raised when [n] exceeds what a [timedelta] holds or
    when the sum leaves 0001-01-01 .. 9999-12-31. *)
Definition epoch_plus_days (n : Z) : option Date :=
  if 999999999 <? Z.abs n then None
  else
    let o := EPOCH_ORDINAL + n in
    if (MINORDINAL <=? o) && (o <=? MAXORDINAL) then Some (ord2ymd o)
    else None.




(** ** Number formatting *)

Definition decimal (n : Z) : string :=
  NilZero.string_of_uint (N.to_uint (Z.to_N n)).

Fixpoint zeros (k : nat) : string :=
  match k with
  | O => ""
  | S k' => String "0" (zeros k')
  end.

Definition zfill (w : nat) (s : string) : string :=
  zeros (w - String.length s) +:+ s.

(** [format(n, "0wd")]: the sign counts towards the width. *)
Definition format_0d (w : nat) (n : Z) : string :=
  if n <? 0 then "-" +:+ zfill (w - 1) (decimal (- n))
  else zfill w (decimal n).

(** [strftime('%Y-%m-%d')]. *)
Definition strftime_Ymd (d : Date) : string :=
  format_0d 4 (year d) +:+ "-" +:+ format_0d 2 (month d) +:+ "-"
    +:+ format_0d 2 (day d).

(** [f"{hours:02d}:{minutes:02d}:{seconds:02d}"]. *)
Definition format_hms (hours minutes seconds : Z) : string :=
  format_0d 2 hours +:+ ":" +:+ format_0d 2 minutes +:+ ":"
    +:+ format_0d 2 seconds.

(** ** State and exceptions *)

Inductive Exn : Type :=
  | OverflowError
  | ValueError
  | TypeError
  | KeyError (key : string)
  | ConnectionError
  | NoBrokersAvailable.

Inductive Res (A : Type) : Type :=
  | Ok (a : A)
  | Raise (e : Exn).
Arguments Ok {A} a.
Arguments Raise {A} e.

(** A computation over a state [St] that returns or raises. *)
Definition M (St A : Type) : Type := St -> Res A * St.

Definition ret {St A} (a : A) : M St A := fun s => (Ok a, s).

Definition bind {St A B} (c : M St A) (k : A -> M St B) : M St B :=
  fun s =>
    match c s with
    | (Ok a, s') => k a s'
    | (Raise e, s') => (Raise e, s')
    end.

Definition raise {St A} (e : Exn) : M St A := fun s => (Raise e, s).

(** [try: c  except Exception as e: h e]. *)
Definition try_except {St A} (c : M St A) (h : Exn -> M St A) : M St A :=
  fun s =>
    match c s with
    | (Ok a, s') => (Ok a, s')
    | (Raise e, s') => h e s'
    end.

Definition gets {St A} (f : St -> A) : M St A := fun s => (Ok (f s), s).
Definition modify {St} (f : St -> St) : M St unit := fun s => (Ok tt, f s).

Definition lift_res {St A} (r : Res A) : M St A := fun s => (r, s).

Declare Scope monad_scope.
Delimit Scope monad_scope with monad.
Notation "x <- c ;; k" := (bind c (fun x => k))
  (at level 100, c at next level, right associativity) : monad_scope.
Notation "c ;; k" := (bind c (fun _ => k))
  (at level 100, right associativity) : monad_scope.
Local Open Scope monad_scope.

(** [for x in l: body x]. *)
Fixpoint for_each {St A} (l : list A) (body : A -> M St unit) : M St unit :=
  match l with
  | [] => ret tt
  | x :: rest => body x ;; for_each rest body
  end.

(** [if b: c]. *)
Definition when {St} (b : bool) (c : M St unit) : M St unit :=
  if b then c else ret tt.

(** ** scripts/kafka_to_weaviate.py *)

(** What [datetime.fromtimestamp(ms / 1000).strftime('%Y-%m-%d %H:%M:%S')]
    gives for an integer [ms]: it depends on the time zone the process runs
    in and on the platform's [time_t] range, so it is a parameter. *)
Class LocalTime : Type := fromtimestamp_strftime : Z -> Res string.

(** A stored search document.  The index names it by a [uuid]. *)
Record IndexObject : Type := mkIndexObject {
  obj_uuid : nat;
  obj_class : string;
  obj_properties : gmap string Value
}.

(** The JSON body of an object creation request.  [post_id] is the
    optional document identity of the index's object schema. *)
Record PostBody : Type := mkPostBody {
  post_class : string;
  post_id : option nat;
  post_properties : gmap string Value
}.

Inductive LogLine : Type :=
  | LogStarting
  | LogConnected
  | LogConnectError
  | LogReceived (after : option (gmap string Value))
  | LogSent (properties : gmap string Value) (status_code : Z)
  | LogSendError (e : Exn)
  | LogSkipping.

(** The store of dictionary objects, the external index, whether the
    index can be reached, and what was printed. *)
Record World : Type := mkWorld {
  heap : gmap positive (gmap string Value);
  weaviate : list IndexObject;
  weaviate_up : bool;
  stdout : list LogLine
}.

Definition set_heap (h : gmap positive (gmap string Value)) (w : World) : World :=
  mkWorld h (weaviate w) (weaviate_up w) (stdout w).
Definition set_weaviate (idx : list IndexObject) (w : World) : World :=
  mkWorld (heap w) idx (weaviate_up w) (stdout w).
Definition set_weaviate_up (b : bool) (w : World) : World :=
  mkWorld (heap w) (weaviate w) b (stdout w).

Definition log (line : LogLine) : M World unit :=
  modify (fun w => mkWorld (heap w) (weaviate w) (weaviate_up w) (stdout w ++ [line])).

(** A new dictionary object holding [d]. *)
Definition alloc (d : gmap string Value) : M World positive :=
  fun w =>
    let l := fresh (dom (heap w)) in
    (Ok l, set_heap (<[l := d]> (heap w)) w).

(** The dictionary an object reference points to. *)
Definition deref (l : positive) : M World (gmap string Value) :=
  fun w =>
    match heap w !! l with
    | Some d => (Ok d, w)
    | None => (Raise TypeError, w)
    end.

(** [dict(d)]: a new object with the same keys and values. *)
Definition dict_copy (l : positive) : M World positive :=
  d <- deref l ;; alloc d.

(** [d[k] if k in d else <absent>]. *)
Definition dict_get (l : positive) (k : string) : M World (option Value) :=
  d <- deref l ;; ret (d !! k).

(** [d[k] = v], in place. *)
Definition dict_set (l : positive) (k : string) (v : Value) : M World unit :=
  d <- deref l ;;
  modify (fun w => set_heap (<[l := <[k := v]> d]> (heap w)) w).

(** [d.pop(k, default)], in place. *)
Definition dict_pop (l : positive) (k : string) (default : Value) : M World Value :=
  d <- deref l ;;
  modify (fun w => set_heap (<[l := delete k d]> (heap w)) w) ;;
  ret (match d !! k with Some v => v | None => default end).

Definition WEAVIATE_CLASS : string := "Event".

(** [k in d and isinstance(d[k], int)]. *)
Definition holds_int (o : option Value) : bool :=
  match o with
  | Some v => isinstance_int v
  | None => false
  end.

Definition the_int (o : option Value) : Z :=
  match o with
  | Some v => int_value v
  | None => 0
  end.

Definition convert_dates `{LocalTime} (event_data : positive) : M World positive :=
  converted_data <- dict_copy event_data ;;
  (* event_date: days since the epoch *)
  d <- dict_get converted_data "event_date" ;;
  when (holds_int d)
    (match epoch_plus_days (the_int d) with
     | Some epoch_date =>
         dict_set converted_data "event_date" (VStr (strftime_Ymd epoch_date))
     | None => raise OverflowError
     end) ;;
  (* event_time: milliseconds since midnight *)
  t <- dict_get converted_data "event_time" ;;
  when (holds_int t)
    (let total_seconds := the_int t / 1000 in
     let hours := total_seconds / 3600 in
     let minutes := (total_seconds mod 3600) / 60 in
     let seconds := total_seconds mod 60 in
     dict_set converted_data "event_time" (VStr (format_hms hours minutes seconds))) ;;
  (* timestamps: milliseconds since the epoch *)
  for_each ["created_at"; "updated_at"] (fun field =>
    ts <- dict_get converted_data field ;;
    when (holds_int ts)
      (timestamp <- lift_res (fromtimestamp_strftime (the_int ts)) ;;
       dict_set converted_data field (VStr timestamp))) ;;
  ret converted_data.

(** The index's object creation endpoint, as [requests.post] reaches it:
    an unreachable index raises; a body without an identity is stored
    under a new one; a body whose identity is taken is refused (422). *)
Definition requests_post (body : PostBody) : M World Z :=
  up <- gets weaviate_up ;;
  if up : bool then
    idx <- gets weaviate ;;
    match post_id body with
    | None =>
        modify (set_weaviate
          (idx ++ [mkIndexObject (length idx) (post_class body) (post_properties body)])) ;;
        ret 200
    | Some u =>
        if existsb (fun o => Nat.eqb (obj_uuid o) u) idx then ret 422
        else
          modify (set_weaviate
            (idx ++ [mkIndexObject u (post_class body) (post_properties body)])) ;;
          ret 200
    end
  else raise ConnectionError.

Definition send_to_weaviate `{LocalTime} (event_data : positive) : M World unit :=
  event_data <- convert_dates event_data ;;
  postgres_id <- dict_pop event_data "id" VNull ;;
  when (truthy postgres_id) (dict_set event_data "postgres_id" postgres_id) ;;
  properties <- deref event_data ;;
  let obj := mkPostBody WEAVIATE_CLASS None properties in
  try_except
    (status_code <- requests_post obj ;;
     log (LogSent properties status_code))
    (fun e => log (LogSendError e)).

(** One delivery of the change log: the ['after'] row image of the
    envelope ([None] when the key is absent or null) and whether the index
    can be reached while the message is handled. *)
Record Message : Type := mkMessage {
  after : option (gmap string Value);
  index_reachable : bool
}.

(** The body of [for message in consumer]; the test is
    [if 'after' in event and event['after']], false on an empty row. *)
Definition handle_message `{LocalTime} (message : Message) : M World unit :=
  modify (set_weaviate_up (index_reachable message)) ;;
  log (LogReceived (after message)) ;;
  match after message with
  | Some row =>
      if negb (bool_decide (row = ∅)) then
        event_after <- alloc row ;;
        send_to_weaviate event_after
      else log LogSkipping
  | None => log LogSkipping
  end.

(** [main]: [connected] tells whether [KafkaConsumer(...)] returned;
    [stream] is what the consumer then yields. *)
Definition main `{LocalTime} (connected : bool) (stream : list Message) : M World unit :=
  log LogStarting ;;
  if connected then
    log LogConnected ;;
    for_each stream handle_message
  else log LogConnectError.

(** A time zone to run the model in: UTC.  [ms / 1000] is rendered down
    to the second, so only the whole seconds count. *)
Definition utc_time : LocalTime :=
  fun ms =>
    let s := ms / 1000 in
    let o := EPOCH_ORDINAL + s / 86400 in
    if (MINORDINAL <=? o) && (o <=? MAXORDINAL) then
      let sod := s mod 86400 in
      Ok (strftime_Ymd (ord2ymd o) +:+ " "
            +:+ format_hms (sod / 3600) ((sod mod 3600) / 60) (sod mod 60))
    else Raise ValueError.


(** ** email_service.py *)

(** A column value as the database driver hands it over. *)
Inductive SqlValue : Type :=
  | SqlNull
  | SqlBool (b : bool)
  | SqlInt (n : Z)
  | SqlText (s : string)
  | SqlDate (d : Date)
  | SqlTime (hour minute second : Z).

#[global] Instance Date_eq_dec : EqDecision Date.
Proof. solve_decision. Defined.

#[global] Instance SqlValue_eq_dec : EqDecision SqlValue.
Proof. solve_decision. Defined.

(** Truth value: dates and times are always true. *)
Definition sql_truthy (v : SqlValue) : bool :=
  match v with
  | SqlNull => false
  | SqlBool b => b
  | SqlInt n => negb (n =? 0)
  | SqlText s => negb (String.eqb s "")
  | SqlDate _ | SqlTime _ _ _ => true
  end.

(** [str(v)], which is also what an f-string puts for [{v}]. *)
Definition py_str (v : SqlValue) : string :=
  match v with
  | SqlNull => "None"
  | SqlBool true => "True"
  | SqlBool false => "False"
  | SqlInt n => if n <? 0 then "-" +:+ decimal (- n) else decimal n
  | SqlText s => s
  | SqlDate d => strftime_Ymd d
  | SqlTime h m s => format_hms h m s
  end.

(** [a or b]. *)
Definition py_or (a b : SqlValue) : SqlValue :=
  if sql_truthy a then a else b.

(** The values the HTML template interpolates, in the order they appear;
    the markup between them is fixed text. *)
Record EmailBody : Type := mkEmailBody {
  body_user_name : string;
  body_title : string;
  body_datetime : string;
  body_location : string;
  body_category : string;
  body_organizer : string;
  body_description : option string
}.

Record Email : Type := mkEmail {
  mail_to : SqlValue;
  mail_subject : string;
  mail_html : EmailBody
}.

(** A row of [event_registrations], as far as the service writes it. *)
Record Registration : Type := mkRegistration {
  email_sent : bool;
  email_sent_at : option Z
}.

(** A call that leaves the consumer. *)
Inductive Call : Type :=
  | CallGetRegistrationDetails (registration_id : Value)
  | CallSendRegistrationConfirmation (user_email : SqlValue) (user_name : SqlValue)
  | CallMarkEmailSent (registration_id : Value).

Inductive Logged : Type :=
  | WarnNoData
  | DebugSkipping (registration_id status email_sent : Value)
  | InfoProcessing (registration_id : Value)
  | ErrorGetDetails (e : Exn)
  | ErrorCouldNotFetch (registration_id : Value)
  | InfoEmailSent (user_email : SqlValue)
  | ErrorSendEmail (user_email : SqlValue) (e : Exn)
  | InfoMarked (registration_id : Value)
  | ErrorMark (e : Exn)
  | InfoProcessed (registration_id : Value)
  | ErrorFailedToSend (registration_id : Value)
  | ErrorProcessingEvent (e : Exn)
  | ErrorProcessingMessage (e : Exn)
  | InfoConnected
  | WarnKafkaNotAvailable (attempt : nat)
  | InfoListening.

(** The relational store (the registration rows and the
    [registration_details] view), its clock, what the mail transport has
    accepted, and how the next connection attempts to the store, the mail
    transport and the broker will end (an exhausted list: unreachable). *)
Record Mailroom : Type := mkMailroom {
  event_registrations : gmap Z Registration;
  registration_details : gmap Z (gmap string SqlValue);
  current_timestamp : Z;
  outbox : list Email;
  db_connects : list bool;
  smtp_connects : list bool;
  kafka_connects : list bool;
  calls : list Call;
  logged : list Logged
}.

Definition record_call (c : Call) : M Mailroom unit :=
  modify (fun r => mkMailroom (event_registrations r) (registration_details r)
    (current_timestamp r) (outbox r) (db_connects r) (smtp_connects r)
    (kafka_connects r) (calls r ++ [c]) (logged r)).

Definition logger (l : Logged) : M Mailroom unit :=
  modify (fun r => mkMailroom (event_registrations r) (registration_details r)
    (current_timestamp r) (outbox r) (db_connects r) (smtp_connects r)
    (kafka_connects r) (calls r) (logged r ++ [l])).

(** [psycopg2.connect(...)]: raises when the store cannot be reached. *)
Definition get_connection : M Mailroom unit :=
  fun r =>
    let r' := mkMailroom (event_registrations r) (registration_details r)
      (current_timestamp r) (outbox r) (tail (db_connects r)) (smtp_connects r)
      (kafka_connects r) (calls r) (logged r) in
    match db_connects r with
    | true :: _ => (Ok tt, r')
    | _ => (Raise ConnectionError, r')
    end.

(** [smtplib.SMTP(...)], [starttls], [login], [send_message]: the message
    is handed over, or the session raises. *)
Definition smtp_send_message (msg : Email) : M Mailroom unit :=
  fun r =>
    match smtp_connects r with
    | true :: rest =>
        (Ok tt, mkMailroom (event_registrations r) (registration_details r)
           (current_timestamp r) (outbox r ++ [msg]) (db_connects r) rest
           (kafka_connects r) (calls r) (logged r))
    | _ =>
        (Raise ConnectionError, mkMailroom (event_registrations r)
           (registration_details r) (current_timestamp r) (outbox r)
           (db_connects r) (tail (smtp_connects r)) (kafka_connects r)
           (calls r) (logged r))
    end.

(** [UPDATE event_registrations SET email_sent = TRUE,
    email_sent_at = CURRENT_TIMESTAMP WHERE id = %s].  Only an integer
    names a row. *)
Definition update_email_sent (registration_id : Value) : M Mailroom unit :=
  modify (fun r =>
    match registration_id with
    | VInt k =>
        mkMailroom
          (alter (fun _ => mkRegistration true (Some (current_timestamp r))) k
             (event_registrations r))
          (registration_details r) (current_timestamp r) (outbox r)
          (db_connects r) (smtp_connects r) (kafka_connects r) (calls r) (logged r)
    | _ => r
    end).

(** [SELECT * FROM registration_details WHERE registration_id = %s]
    followed by [fetchone]. *)
Definition select_registration_details (registration_id : Value)
  : M Mailroom (option (gmap string SqlValue)) :=
  gets (fun r =>
    match registration_id with
    | VInt k => registration_details r !! k
    | _ => None
    end).

(** [d[k]] on a dictionary that is only read. *)
Definition getitem {St} (d : gmap string SqlValue) (k : string) : M St SqlValue :=
  match d !! k with
  | Some v => ret v
  | None => raise (KeyError k)
  end.

(** [d.get(k, default)]. *)
Definition get_default {V} (d : gmap string V) (k : string) (default : V) : V :=
  match d !! k with
  | Some v => v
  | None => default
  end.

(** The date and time line of the e-mail. *)
Definition formatted_datetime (event_details : gmap string SqlValue) : string :=
  let event_date := get_default event_details "event_date" (SqlText "TBD") in
  let event_time := get_default event_details "event_time" (SqlText "TBD") in
  if negb (bool_decide (event_date = SqlText "TBD"))
     && negb (bool_decide (event_time = SqlText "TBD"))
  then py_str event_date +:+ " at " +:+ py_str event_time
  else if negb (bool_decide (event_date = SqlText "TBD"))
  then py_str event_date
  else "Date and time to be announced".

Definition _create_email_template {St} (user_name : SqlValue)
    (event_details : gmap string SqlValue) : M St EmailBody :=
  title <- getitem event_details "title" ;;
  ret (mkEmailBody
         (py_str user_name)
         (py_str title)
         (formatted_datetime event_details)
         (py_str (get_default event_details "location" (SqlText "Location TBD")))
         (py_str (get_default event_details "category" (SqlText "General")))
         (py_str (get_default event_details "organizer" (SqlText "Event Organizer")))
         (if sql_truthy (get_default event_details "description" SqlNull)
          then Some (py_str (get_default event_details "description" SqlNull))
          else None)).

Definition send_registration_confirmation (user_email user_name : SqlValue)
    (event_details : gmap string SqlValue) : M Mailroom bool :=
  record_call (CallSendRegistrationConfirmation user_email user_name) ;;
  try_except
    (title <- getitem event_details "title" ;;
     let subject := "✅ Registration Confirmed: " +:+ py_str title in
     html_body <- _create_email_template user_name event_details ;;
     smtp_send_message (mkEmail user_email subject html_body) ;;
     logger (InfoEmailSent user_email) ;;
     ret true)
    (fun e => logger (ErrorSendEmail user_email e) ;; ret false).

Definition mark_email_sent (registration_id : Value) : M Mailroom bool :=
  record_call (CallMarkEmailSent registration_id) ;;
  try_except
    (get_connection ;;
     update_email_sent registration_id ;;
     logger (InfoMarked registration_id) ;;
     ret true)
    (fun e => logger (ErrorMark e) ;; ret false).

Definition get_registration_details (registration_id : Value)
  : M Mailroom (option (gmap string SqlValue)) :=
  record_call (CallGetRegistrationDetails registration_id) ;;
  try_except
    (get_connection ;;
     select_registration_details registration_id)
    (fun e => logger (ErrorGetDetails e) ;; ret None).

(** The gate: [status != 'registered' or email_sent]. *)
Definition skipped (status email_sent : Value) : bool :=
  negb (bool_decide (status = VStr "registered")) || truthy email_sent.

Definition process_registration_event (message : gmap string Value) : M Mailroom unit :=
  try_except
    (let after_data := message in
     if bool_decide (after_data = ∅) then logger WarnNoData
     else
       let registration_id := get_default after_data "id" VNull in
       let status := get_default after_data "status" (VStr "") in
       let email_sent := get_default after_data "email_sent" (VBool false) in
       if skipped status email_sent
       then logger (DebugSkipping registration_id status email_sent)
       else
         logger (InfoProcessing registration_id) ;;
         fetched <- get_registration_details registration_id ;;
         match fetched with
         | None => logger (ErrorCouldNotFetch registration_id)
         | Some details =>
           if bool_decide (details = ∅)
           then logger (ErrorCouldNotFetch registration_id)
           else
             title <- getitem details "event_title" ;;
             description <- getitem details "event_description" ;;
             category <- getitem details "event_category" ;;
             location <- getitem details "event_location" ;;
             event_date <- getitem details "event_date" ;;
             event_time <- getitem details "event_time" ;;
             organizer <- getitem details "organizer" ;;
             let event_details : gmap string SqlValue :=
               list_to_map
                 [("title", title);
                  ("description", description);
                  ("category", category);
                  ("location", location);
                  ("event_date",
                     if sql_truthy event_date then SqlText (py_str event_date)
                     else SqlText "TBD");
                  ("event_time",
                     if sql_truthy event_time then SqlText (py_str event_time)
                     else SqlText "TBD");
                  ("organizer", organizer)] in
             user_email <- getitem details "email" ;;
             full_name <- getitem details "full_name" ;;
             user_name <-
               (if sql_truthy full_name then ret full_name
                else getitem details "username") ;;
             sent <- send_registration_confirmation user_email user_name event_details ;;
             if sent : bool then
               mark_email_sent registration_id ;;
               logger (InfoProcessed registration_id)
             else logger (ErrorFailedToSend registration_id)
         end)
    (fun e => logger (ErrorProcessingEvent e)).

Definition max_retries : nat := 10.

(** One attempt to reach the broker. *)
Definition kafka_consumer : M Mailroom bool :=
  fun r =>
    (Ok (match kafka_connects r with true :: _ => true | _ => false end),
     mkMailroom (event_registrations r) (registration_details r)
       (current_timestamp r) (outbox r) (db_connects r) (smtp_connects r)
       (tail (kafka_connects r)) (calls r) (logged r)).

(** [connect_kafka]: [for attempt in range(max_retries)], returning on
    the first success and re-raising on the last failure. *)
Fixpoint connect_kafka_from (attempts : list nat) : M Mailroom unit :=
  match attempts with
  | [] => ret tt
  | attempt :: rest =>
      ok <- kafka_consumer ;;
      if ok : bool then logger InfoConnected
      else
        logger (WarnKafkaNotAvailable (attempt + 1)) ;;
        if (attempt <? max_retries - 1)%nat then connect_kafka_from rest
        else raise NoBrokersAvailable
  end.

Definition connect_kafka : M Mailroom unit :=
  connect_kafka_from (seq 0 max_retries).

(** The body of [for message in consumer]; [value] is [None] for a
    delivery without a value. *)
Definition on_message (value : option (gmap string Value)) : M Mailroom unit :=
  try_except
    (match value with
     | Some v =>
         if negb (bool_decide (v = ∅)) then process_registration_event v
         else ret tt
     | None => ret tt
     end)
    (fun e => logger (ErrorProcessingMessage e)).

Definition run (stream : list (option (gmap string Value))) : M Mailroom unit :=
  connect_kafka ;;
  logger InfoListening ;;
  for_each stream on_message.

(** ** What [convert_dates] does to the fields of its copy

    The same steps as [convert_dates], read as a computation on the copied
    dictionary alone. *)

Definition convert_fields `{LocalTime} : M (gmap string Value) unit :=
  d <- gets (fun m => m !! "event_date") ;;
  when (holds_int d)
    (match epoch_plus_days (the_int d) with
     | Some epoch_date => modify (insert "event_date" (VStr (strftime_Ymd epoch_date)))
     | None => raise OverflowError
     end) ;;
  t <- gets (fun m => m !! "event_time") ;;
  when (holds_int t)
    (let total_seconds := the_int t / 1000 in
     let hours := total_seconds / 3600 in
     let minutes := (total_seconds mod 3600) / 60 in
     let seconds := total_seconds mod 60 in
     modify (insert "event_time" (VStr (format_hms hours minutes seconds)))) ;;
  for_each ["created_at"; "updated_at"] (fun field =>
    ts <- gets (fun m => m !! field) ;;
    when (holds_int ts)
      (timestamp <- lift_res (fromtimestamp_strftime (the_int ts)) ;;
       modify (insert field (VStr timestamp)))).

(** One temporal field: an integer under [k] is replaced by its
    rendering, anything else is left alone. *)
Definition convert_field (k : string) (render : Z -> Res string)
    (m : gmap string Value) : Res (gmap string Value) :=
  if holds_int (m !! k) then
    match render (the_int (m !! k)) with
    | Ok s => Ok (<[k := VStr s]> m)
    | Raise e => Raise e
    end
  else Ok m.

Definition render_event_date (n : Z) : Res string :=
  match epoch_plus_days n with
  | Some epoch_date => Ok (strftime_Ymd epoch_date)
  | None => Raise OverflowError
  end.

Definition render_event_time (ms : Z) : Res string :=
  let total_seconds := ms / 1000 in
  Ok (format_hms (total_seconds / 3600) ((total_seconds mod 3600) / 60)
        (total_seconds mod 60)).

Definition and_then {A B} (r : Res A) (k : A -> Res B) : Res B :=
  match r with
  | Ok a => k a
  | Raise e => Raise e
  end.

(** The dictionary [convert_dates] returns for [m], or what it raises. *)
Definition converted `{LocalTime} (m : gmap string Value) : Res (gmap string Value) :=
  and_then (convert_field "event_date" render_event_date m) (fun m1 =>
  and_then (convert_field "event_time" render_event_time m1) (fun m2 =>
  and_then (convert_field "created_at" fromtimestamp_strftime m2) (fun m3 =>
  convert_field "updated_at" fromtimestamp_strftime m3))).

(** Running a computation on the dictionary stored at [l]. *)
Definition focus {A} (l : positive) (c : M (gmap string Value) A) : M World A :=
  fun w =>
    match heap w !! l with
    | Some d => let '(r, d') := c d in (r, set_heap (<[l := d']> (heap w)) w)
    | None => (Raise TypeError, w)
    end.

(** [C] acts on the store only through the dictionary at [l], as [c]. *)
Definition lifts {A} (l : positive) (C : M World A) (c : M (gmap string Value) A) : Prop :=
  forall w d, heap w !! l = Some d -> C w = focus l c w.

(** ** Checking a property on a range of integers *)






(** ** The shapes [YYYY-MM-DD] and [HH:MM:SS] *)






(** The range of [event_date] values that name a [datetime]. *)
Definition MIN_DAYS : Z := -719162.
Definition MAX_DAYS : Z := 2932896.

(** The keys [convert_dates] looks at. *)
Definition temporal (k : string) : Prop :=
  k = "event_date" \/ k = "event_time" \/ k = "created_at" \/ k = "updated_at".

(** An integer under a temporal key has a rendering. *)
Definition renders (render : Z -> Res string) (o : option Value) : Prop :=
  holds_int o = true -> exists s, render (the_int o) = Ok s.

(** The payloads on which no conversion of [convert_dates] raises. *)
Definition convertible `{LocalTime} (m : gmap string Value) : Prop :=
  (holds_int (m !! "event_date") = true ->
     MIN_DAYS <= the_int (m !! "event_date") <= MAX_DAYS)
  /\ renders fromtimestamp_strftime (m !! "created_at")
  /\ renders fromtimestamp_strftime (m !! "updated_at").

(** ** Sample payloads and worlds *)

Definition empty_store : World := mkWorld ∅ [] true [].

(** A world whose store holds [row] at address 1. *)
Definition world_with (row : gmap string Value) : World :=
  mkWorld {[ 1%positive := row ]} [] true [].

Definition expo_row : gmap string Value :=
  <["id" := VInt 7]>
  (<["title" := VStr "Expo"]>
  (<["event_date" := VInt 20000]>
  (<["event_time" := VInt 34200000]>
  (<["created_at" := VInt 1700000000123]> ∅)))).

(** An event on 10000-01-01, a date the relational store can hold. *)
Definition far_row : gmap string Value :=
  <["id" := VInt 8]>
  (<["title" := VStr "Jubilee"]>
  (<["event_date" := VInt 2932897]> ∅)).

(** A row as an upstream connector delivers it when it decodes the
    temporal columns itself. *)
Definition decoded_row : gmap string Value :=
  <["id" := VInt 9]>
  (<["title" := VStr "Expo"]>
  (<["event_date" := VStr "2024-10-04"]>
  (<["event_time" := VStr "09:30:00"]> ∅))).


(** ** What [send_to_weaviate] posts *)

(** The property bag after [pop('id', None)] and the conditional
    [postgres_id] entry. *)
Definition cross_referenced (c : gmap string Value) : gmap string Value :=
  let postgres_id := match c !! "id" with Some v => v | None => VNull end in
  if truthy postgres_id then <["postgres_id" := postgres_id]> (delete "id" c)
  else delete "id" c.

(** The world after the request for [properties] was made, with the
    property bag left at [l]. *)
Definition posted (l : positive) (properties : gmap string Value) (w : World) : World :=
  if weaviate_up w then
    mkWorld (<[l := properties]> (heap w))
      (weaviate w ++ [mkIndexObject (length (weaviate w)) WEAVIATE_CLASS properties])
      true (stdout w ++ [LogSent properties 200])
  else
    mkWorld (<[l := properties]> (heap w)) (weaviate w) false
      (stdout w ++ [LogSendError ConnectionError]).

(** The world once [message] has been taken off the log and printed. *)
Definition received (message : Message) (w : World) : World :=
  mkWorld (heap w) (weaviate w) (index_reachable message)
    (stdout w ++ [LogReceived (after message)]).

(** A delivery of [row] while the index can be reached. *)
Definition delivery (row : gmap string Value) : Message := mkMessage (Some row) true.

(** ** Reading a registration record *)

Definition record_id (message : gmap string Value) : Value :=
  get_default message "id" VNull.
Definition record_status (message : gmap string Value) : Value :=
  get_default message "status" (VStr "").
Definition record_email_sent (message : gmap string Value) : Value :=
  get_default message "email_sent" (VBool false).

(** The mailroom with [lines] added to its log and nothing else changed. *)
Definition with_logged (lines : list Logged) (r : Mailroom) : Mailroom :=
  mkMailroom (event_registrations r) (registration_details r)
    (current_timestamp r) (outbox r) (db_connects r) (smtp_connects r)
    (kafka_connects r) (calls r) (logged r ++ lines).

Definition registered_record (k : Z) : gmap string Value :=
  <["id" := VInt k]>
  (<["status" := VStr "registered"]>
  (<["email_sent" := VBool false]> ∅)).


Definition expo_details : gmap string SqlValue :=
  <["event_title" := SqlText "Expo"]>
  (<["event_description" := SqlNull]>
  (<["event_category" := SqlText "Tech"]>
  (<["event_location" := SqlText "Hall 1"]>
  (<["event_date" := SqlDate (mkDate 2024 10 4)]>
  (<["event_time" := SqlTime 9 30 0]>
  (<["organizer" := SqlText "Guild"]>
  (<["email" := SqlText "ann@example.org"]>
  (<["full_name" := SqlText ""]>
  (<["username" := SqlText "ann"]> ∅))))))))).

(** One registration, not yet notified; store and mail transport answer. *)
Definition expo_mailroom : Mailroom :=
  mkMailroom {[ 5 := mkRegistration false None ]} {[ 5 := expo_details ]}
    1000 [] [true; true] [true] [true] [] [].

(** ** What [process_registration_event] hands to the mail service *)

Definition lookup_key (d : gmap string SqlValue) (k : string) : Res SqlValue :=
  match d !! k with
  | Some v => Ok v
  | None => Raise (KeyError k)
  end.

(** [str(v) if v else 'TBD']. *)
Definition or_tbd (v : SqlValue) : SqlValue :=
  if sql_truthy v then SqlText (py_str v) else SqlText "TBD".

(** Recipient, display name and event details read off the fetched
    row, or the [KeyError] of the first column it lacks. *)
Definition prepare (details : gmap string SqlValue)
  : Res (SqlValue * SqlValue * gmap string SqlValue) :=
  and_then (lookup_key details "event_title") (fun title =>
  and_then (lookup_key details "event_description") (fun description =>
  and_then (lookup_key details "event_category") (fun category =>
  and_then (lookup_key details "event_location") (fun location =>
  and_then (lookup_key details "event_date") (fun event_date =>
  and_then (lookup_key details "event_time") (fun event_time =>
  and_then (lookup_key details "organizer") (fun organizer =>
  and_then (lookup_key details "email") (fun user_email =>
  and_then (lookup_key details "full_name") (fun full_name =>
  and_then (if sql_truthy full_name then Ok full_name
            else lookup_key details "username") (fun user_name =>
  Ok (user_email, user_name,
      list_to_map
        [("title", title);
         ("description", description);
         ("category", category);
         ("location", location);
         ("event_date", or_tbd event_date);
         ("event_time", or_tbd event_time);
         ("organizer", organizer)]))))))))))).

(** The message [send_registration_confirmation] builds, or the
    [KeyError] for event details without a title. *)
Definition confirmation (user_email user_name : SqlValue)
    (event_details : gmap string SqlValue) : Res Email :=
  and_then (lookup_key event_details "title") (fun title =>
  Ok (mkEmail user_email ("✅ Registration Confirmed: " +:+ py_str title)
        (mkEmailBody
           (py_str user_name)
           (py_str title)
           (formatted_datetime event_details)
           (py_str (get_default event_details "location" (SqlText "Location TBD")))
           (py_str (get_default event_details "category" (SqlText "General")))
           (py_str (get_default event_details "organizer" (SqlText "Event Organizer")))
           (if sql_truthy (get_default event_details "description" SqlNull)
            then Some (py_str (get_default event_details "description" SqlNull))
            else None)))).

(** ** More sample payloads *)

(** Booleans where a connector would put day and millisecond counts. *)
Definition flagged_row : gmap string Value :=
  <["event_date" := VBool true]> (<["event_time" := VBool false]> ∅).

(** An event that starts one millisecond before midnight of the day
    before. *)
Definition early_row : gmap string Value :=
  <["id" := VInt 3]> (<["event_time" := VInt (-1)]> ∅).

(** A row that already carries a [postgres_id] of its own. *)
Definition relinked_row : gmap string Value :=
  <["id" := VInt 7]> (<["postgres_id" := VInt 99]> (<["title" := VStr "Expo"]> ∅)).

(** ** What a stream leaves in the index *)

(** The property bag posted for one delivery, if one is posted. *)
Definition document_of `{LocalTime} (message : Message) : option (gmap string Value) :=
  match after message with
  | Some row =>
      if bool_decide (row = ∅) then None
      else if index_reachable message then
        match converted row with
        | Ok c => Some (cross_referenced c)
        | Raise _ => None
        end
      else None
  | None => None
  end.

(** Stored objects for [documents], numbered from [start]. *)
Fixpoint stored_from (start : nat) (documents : list (gmap string Value))
  : list IndexObject :=
  match documents with
  | [] => []
  | d :: rest => mkIndexObject start WEAVIATE_CLASS d :: stored_from (S start) rest
  end.

(** Every row of the stream can be converted. *)
Definition all_convertible `{LocalTime} (stream : list Message) : Prop :=
  forall message row, In message stream -> after message = Some row -> convertible row.

(** Two deliveries that reach the index, one without a row and one that
    arrives while the index is away. *)
Definition mixed_stream : list Message :=
  [delivery expo_row; mkMessage None true; mkMessage (Some decoded_row) false;
   delivery decoded_row].

(** ** More sample mailrooms *)

(** The view row of registration 5 without its [username] column. *)
Definition nameless_details : gmap string SqlValue := delete "username" expo_details.

Definition nameless_mailroom : Mailroom :=
  mkMailroom {[ 5 := mkRegistration false None ]} {[ 5 := nameless_details ]}
    1000 [] [true; true] [true] [true] [] [].

(** The store answers the fetch but not the flag write. *)
Definition flaky_mailroom : Mailroom :=
  mkMailroom {[ 5 := mkRegistration false None ]} {[ 5 := expo_details ]}
    1000 [] [true; false] [true] [true] [] [].

(** Store and mail transport answer for two deliveries. *)
Definition steady_mailroom : Mailroom :=
  mkMailroom {[ 5 := mkRegistration false None ]} {[ 5 := expo_details ]}
    1000 [] [true; true; true; true] [true; true] [true] [] [].

(** The broker refuses [n] connections, then accepts. *)
Definition late_broker (n : nat) : Mailroom :=
  mkMailroom ∅ ∅ 0 [] [] [] (replicate n false ++ [true]) [] [].

(** A row with no location and an empty description. *)
Definition bare_details : gmap string SqlValue :=
  <["event_location" := SqlNull]>
  (<["event_description" := SqlText ""]>
  (<["event_time" := SqlNull]> expo_details)).

Definition bare_mailroom : Mailroom :=
  mkMailroom {[ 5 := mkRegistration false None ]} {[ 5 := bare_details ]}
    1000 [] [true; true] [true] [true] [] [].

(** The warnings of [n] refused connections. *)
Definition refusals (n : nat) : list Logged :=
  map WarnKafkaNotAvailable (seq 1 n).

(** The event details and the mail of registration 5. *)
Definition expo_event_details : gmap string SqlValue :=
  list_to_map
    [("title", SqlText "Expo");
     ("description", SqlNull);
     ("category", SqlText "Tech");
     ("location", SqlText "Hall 1");
     ("event_date", SqlText "2024-10-04");
     ("event_time", SqlText "09:30:00");
     ("organizer", SqlText "Guild")].

Definition expo_mail : Email :=
  mkEmail (SqlText "ann@example.org") "✅ Registration Confirmed: Expo"
    (mkEmailBody "ann" "Expo" "2024-10-04 at 09:30:00" "Hall 1" "Tech" "Guild" None).

(** The mail of registration 5 when its row is [bare_details]. *)
Definition bare_mail : Email :=
  mkEmail (SqlText "ann@example.org") "✅ Registration Confirmed: Expo"
    (mkEmailBody "ann" "Expo" "2024-10-04" "None" "Tech" "Guild" None).

(** A registration record whose [email_sent] column is NULL. *)
Definition unflagged_record (k : Z) : gmap string Value :=
  <["id" := VInt k]>
  (<["status" := VStr "registered"]>
  (<["email_sent" := VNull]> ∅)).

(** * Properties *)

(** ** The monad and the store *)

Lemma set_heap_id w : set_heap (heap w) w = w.
Proof. by destruct w. Qed.

Lemma set_heap_set_heap h h' w : set_heap h (set_heap h' w) = set_heap h w.
Proof. done. Qed.

Lemma heap_set_heap h w : heap (set_heap h w) = h.
Proof. done. Qed.

Lemma lifts_ret {A} l (a : A) : lifts l (ret a) (ret a).
Proof.
  intros w d Hd. unfold focus, ret. rewrite Hd.
  by rewrite insert_id, set_heap_id.
Qed.

Lemma lifts_raise {A} l e : lifts l (raise e) (@raise _ A e).
Proof.
  intros w d Hd. unfold focus, raise. rewrite Hd.
  by rewrite insert_id, set_heap_id.
Qed.

Lemma lifts_lift_res {A} l (r : Res A) : lifts l (lift_res r) (lift_res r).
Proof.
  intros w d Hd. unfold focus, lift_res. rewrite Hd.
  by rewrite insert_id, set_heap_id.
Qed.

Lemma lifts_bind {A B} l (C : M World A) c (K : A -> M World B) k :
  lifts l C c -> (forall a, lifts l (K a) (k a)) -> lifts l (bind C K) (bind c k).
Proof.
  intros HC HK w d Hd. unfold bind. rewrite (HC w d Hd).
  unfold focus. rewrite Hd.
  destruct (c d) as [[a|e] d'] eqn:Hc; [|done].
  rewrite (HK a _ d') by apply lookup_insert_eq.
  unfold focus. simpl. rewrite lookup_insert_eq.
  destruct (k a d') as [r d'']. by rewrite insert_insert_eq.
Qed.

Lemma lifts_ext {A} l (C : M World A) c c' :
  (forall d, c d = c' d) -> lifts l C c -> lifts l C c'.
Proof.
  intros Hcc HC w d Hd. rewrite (HC w d Hd). unfold focus. by rewrite Hd, Hcc.
Qed.

Lemma bind_assoc {St A B C} (c : M St A) (f : A -> M St B) (g : B -> M St C) s :
  bind (bind c f) g s = bind c (fun a => bind (f a) g) s.
Proof. unfold bind. by destruct (c s) as [[a|e] s']. Qed.

Lemma bind_ext {St A B} (c : M St A) (k k' : A -> M St B) s :
  (forall a s', k a s' = k' a s') -> bind c k s = bind c k' s.
Proof. intros Hk. unfold bind. destruct (c s) as [[a|e] s']; [apply Hk | done]. Qed.

Lemma lifts_when l b C c : lifts l C c -> lifts l (when b C) (when b c).
Proof. destruct b; [done | intros _; apply lifts_ret]. Qed.

Lemma lifts_for_each {A} l (xs : list A) Body body :
  (forall x, lifts l (Body x) (body x)) -> lifts l (for_each xs Body) (for_each xs body).
Proof.
  intros Hb. induction xs as [|x xs IH]; simpl.
  - apply lifts_ret.
  - apply lifts_bind; [apply Hb | intros _; apply IH].
Qed.

Lemma lifts_dict_get l k : lifts l (dict_get l k) (gets (fun m => m !! k)).
Proof.
  intros w d Hd. unfold dict_get, deref, bind, focus, gets, ret. rewrite Hd.
  by rewrite insert_id, set_heap_id.
Qed.

Lemma lifts_deref l : lifts l (deref l) (gets (fun m => m)).
Proof.
  intros w d Hd. unfold deref, focus, gets. rewrite Hd.
  by rewrite insert_id, set_heap_id.
Qed.

Lemma lifts_dict_set l k v : lifts l (dict_set l k v) (modify (insert k v)).
Proof.
  intros w d Hd. unfold dict_set, deref, bind, focus, modify. by rewrite Hd.
Qed.

Lemma lifts_dict_pop l k dflt :
  lifts l (dict_pop l k dflt)
    (v <- gets (fun m => match m !! k with Some v => v | None => dflt end) ;;
     modify (delete k) ;; ret v).
Proof.
  intros w d Hd. unfold dict_pop, deref, bind, focus, modify, gets, ret. by rewrite Hd.
Qed.

Create HintDb lifts.
#[global] Hint Resolve lifts_ret lifts_raise lifts_lift_res lifts_when
  lifts_dict_get lifts_deref lifts_dict_set lifts_dict_pop : lifts.

Ltac lifts_step :=
  first [ solve [auto with lifts]
        | apply lifts_bind; [|intros ?]
        | apply lifts_for_each; intros ?
        | apply lifts_when
        | match goal with
          | |- lifts _ (match ?x with _ => _ end) _ => destruct x
          end ].

Lemma lifts_convert_fields `{LocalTime} l :
  lifts l
    (d <- dict_get l "event_date" ;;
     when (holds_int d)
       (match epoch_plus_days (the_int d) with
        | Some epoch_date =>
            dict_set l "event_date" (VStr (strftime_Ymd epoch_date))
        | None => raise OverflowError
        end) ;;
     t <- dict_get l "event_time" ;;
     when (holds_int t)
       (let total_seconds := the_int t / 1000 in
        let hours := total_seconds / 3600 in
        let minutes := (total_seconds mod 3600) / 60 in
        let seconds := total_seconds mod 60 in
        dict_set l "event_time" (VStr (format_hms hours minutes seconds))) ;;
     for_each ["created_at"; "updated_at"] (fun field =>
       ts <- dict_get l field ;;
       when (holds_int ts)
         (timestamp <- lift_res (fromtimestamp_strftime (the_int ts)) ;;
          dict_set l field (VStr timestamp))) ;;
     ret l)
    (convert_fields ;; ret l).
Proof.
  apply (lifts_ext l _
    (d <- gets (fun m => m !! "event_date") ;;
     when (holds_int d)
       (match epoch_plus_days (the_int d) with
        | Some epoch_date =>
            modify (insert "event_date" (VStr (strftime_Ymd epoch_date)))
        | None => raise OverflowError
        end) ;;
     t <- gets (fun m => m !! "event_time") ;;
     when (holds_int t)
       (let total_seconds := the_int t / 1000 in
        modify (insert "event_time"
          (VStr (format_hms (total_seconds / 3600) ((total_seconds mod 3600) / 60)
                   (total_seconds mod 60))))) ;;
     for_each ["created_at"; "updated_at"] (fun field =>
       ts <- gets (fun m => m !! field) ;;
       when (holds_int ts)
         (timestamp <- lift_res (fromtimestamp_strftime (the_int ts)) ;;
          modify (insert field (VStr timestamp)))) ;;
     ret l)).
  - intros d. unfold convert_fields. symmetry.
    rewrite !bind_assoc. apply bind_ext. intros a d1.
    rewrite !bind_assoc. apply bind_ext. intros _ d2.
    rewrite !bind_assoc. apply bind_ext. intros t d3.
    rewrite !bind_assoc. apply bind_ext. intros _ d4.
    reflexivity.
  - repeat lifts_step.
Qed.

(** ** [convert_dates] on the store *)

Lemma convert_fields_converted `{LocalTime} (m : gmap string Value) :
  match converted m with
  | Ok m' => convert_fields m = (Ok tt, m')
  | Raise e => exists m', convert_fields m = (Raise e, m')
  end.
Proof.
  unfold converted, convert_fields, convert_field, render_event_date,
    render_event_time, and_then, for_each, bind, gets, when, modify, lift_res,
    raise, ret.
  repeat match goal with
  | |- context [holds_int ?o] => destruct (holds_int o) eqn:?
  | |- context [epoch_plus_days ?n] => destruct (epoch_plus_days n) eqn:?
  | |- context [fromtimestamp_strftime ?n] =>
      destruct (fromtimestamp_strftime n) eqn:?
  | _ => progress simpl
  end; eauto.
Qed.

Lemma convert_dates_run `{LocalTime} w l (m : gmap string Value) :
  heap w !! l = Some m ->
  let l' := fresh (dom (heap w)) in
  match converted m with
  | Ok m' => convert_dates l w = (Ok l', set_heap (<[l' := m']> (heap w)) w)
  | Raise e =>
      exists m', convert_dates l w = (Raise e, set_heap (<[l' := m']> (heap w)) w)
  end.
Proof.
  intros Hl l'.
  assert (Hrun : convert_dates l w =
    focus l' (convert_fields ;; ret l') (set_heap (<[l' := m]> (heap w)) w)).
  { unfold convert_dates. unfold bind at 1.
    unfold dict_copy, bind, deref, alloc. rewrite Hl. fold l'.
    apply (lifts_convert_fields l' _ m). apply lookup_insert_eq. }
  rewrite Hrun. unfold focus, bind. simpl. rewrite lookup_insert_eq.
  pose proof (convert_fields_converted m) as Hc.
  destruct (converted m) as [m'|e].
  - rewrite Hc. simpl. by rewrite insert_insert_eq.
  - destruct Hc as [m' Hc]. exists m'. rewrite Hc. by rewrite insert_insert_eq.
Qed.

(** ** The calendar *)













Lemma epoch_plus_days_in_range n :
  -719162 <= n <= 2932896 -> epoch_plus_days n = Some (ord2ymd (EPOCH_ORDINAL + n)).
Proof.
  intros Hn. unfold epoch_plus_days, MINORDINAL, MAXORDINAL, EPOCH_ORDINAL.
  destruct (Z.ltb_spec 999999999 (Z.abs n)); [lia|].
  destruct (Z.leb_spec 1 (719163 + n)); [|lia].
  destruct (Z.leb_spec (719163 + n) 3652059); [done|lia].
Qed.

Lemma epoch_plus_days_out_of_range n :
  ~ (-719162 <= n <= 2932896) -> epoch_plus_days n = None.
Proof.
  intros Hn. unfold epoch_plus_days, MINORDINAL, MAXORDINAL, EPOCH_ORDINAL.
  destruct (999999999 <? Z.abs n); [done|].
  destruct (Z.leb_spec 1 (719163 + n)); [|done].
  destruct (Z.leb_spec (719163 + n) 3652059); [lia|done].
Qed.

(** ** Zero padding *)








(** ** Field by field *)

Lemma convert_field_not_int k render (m : gmap string Value) :
  holds_int (m !! k) = false -> convert_field k render m = Ok m.
Proof. intros Hk. unfold convert_field. by rewrite Hk. Qed.

Lemma convert_field_int k render (m : gmap string Value) s :
  holds_int (m !! k) = true -> render (the_int (m !! k)) = Ok s ->
  convert_field k render m = Ok (<[k := VStr s]> m).
Proof. intros Hk Hr. unfold convert_field. by rewrite Hk, Hr. Qed.

Lemma convert_field_inv k render (m m' : gmap string Value) :
  convert_field k render m = Ok m' ->
  (holds_int (m !! k) = false /\ m' = m)
  \/ (holds_int (m !! k) = true /\
      exists s, render (the_int (m !! k)) = Ok s /\ m' = <[k := VStr s]> m).
Proof.
  unfold convert_field. destruct (holds_int (m !! k)); [|naive_solver].
  destruct (render _) as [s|e]; [|done]. naive_solver.
Qed.

Lemma convert_field_other k render (m m' : gmap string Value) k' :
  convert_field k render m = Ok m' -> k' ≠ k -> m' !! k' = m !! k'.
Proof.
  intros Hc Hne. apply convert_field_inv in Hc as [[_ ->]|(_ & s & _ & ->)]; [done|].
  by rewrite lookup_insert_ne.
Qed.

(** After its conversion a field no longer holds an integer. *)
Lemma convert_field_done k render (m m' : gmap string Value) :
  convert_field k render m = Ok m' -> holds_int (m' !! k) = false.
Proof.
  intros Hc. apply convert_field_inv in Hc as [[? ->]|(_ & s & _ & ->)]; [done|].
  by rewrite lookup_insert_eq.
Qed.

Lemma convert_field_keeps k render (m m' : gmap string Value) k' :
  convert_field k render m = Ok m' ->
  holds_int (m !! k') = false -> m' !! k' = m !! k'.
Proof.
  intros Hc Hk'. destruct (decide (k' = k)) as [->|Hne].
  - unfold convert_field in Hc. rewrite Hk' in Hc. by injection Hc as <-.
  - by eapply convert_field_other.
Qed.

Lemma convert_field_dom k render (m m' : gmap string Value) :
  convert_field k render m = Ok m' -> dom m' = dom m.
Proof.
  intros Hc.
  destruct (convert_field_inv _ _ _ _ Hc) as [[_ ->]|(Hk & s & _ & ->)]; [done|].
  rewrite dom_insert_L.
  apply subseteq_union_1_L, singleton_subseteq_l, elem_of_dom.
  destruct (m !! k); [eauto | done].
Qed.

Lemma converted_inv `{LocalTime} (m m' : gmap string Value) :
  converted m = Ok m' ->
  exists m1 m2 m3,
    convert_field "event_date" render_event_date m = Ok m1
    /\ convert_field "event_time" render_event_time m1 = Ok m2
    /\ convert_field "created_at" fromtimestamp_strftime m2 = Ok m3
    /\ convert_field "updated_at" fromtimestamp_strftime m3 = Ok m'.
Proof.
  unfold converted, and_then. intros Hc.
  destruct (convert_field "event_date" _ m) as [m1|] eqn:H1; [|done].
  destruct (convert_field "event_time" _ m1) as [m2|] eqn:H2; [|done].
  destruct (convert_field "created_at" _ m2) as [m3|] eqn:H3; [|done].
  eauto 10.
Qed.

(** A key that is not temporal keeps its value. *)
Lemma converted_other `{LocalTime} (m m' : gmap string Value) k :
  converted m = Ok m' -> ~ temporal k -> m' !! k = m !! k.
Proof.
  intros (m1 & m2 & m3 & H1 & H2 & H3 & H4)%converted_inv Hk.
  unfold temporal in Hk.
  rewrite (convert_field_other _ _ _ _ k H4) by naive_solver.
  rewrite (convert_field_other _ _ _ _ k H3) by naive_solver.
  rewrite (convert_field_other _ _ _ _ k H2) by naive_solver.
  rewrite (convert_field_other _ _ _ _ k H1) by naive_solver.
  done.
Qed.

(** A key that does not hold an integer keeps its value. *)
Lemma converted_keeps `{LocalTime} (m m' : gmap string Value) k :
  converted m = Ok m' -> holds_int (m !! k) = false -> m' !! k = m !! k.
Proof.
  intros (m1 & m2 & m3 & H1 & H2 & H3 & H4)%converted_inv Hk.
  pose proof (convert_field_keeps _ _ _ _ k H1 Hk) as E1. rewrite <- E1 in Hk.
  pose proof (convert_field_keeps _ _ _ _ k H2 Hk) as E2. rewrite <- E2 in Hk.
  pose proof (convert_field_keeps _ _ _ _ k H3 Hk) as E3. rewrite <- E3 in Hk.
  pose proof (convert_field_keeps _ _ _ _ k H4 Hk) as E4. congruence.
Qed.

(** No temporal field holds an integer after the conversion. *)
Lemma convert_field_stays k render (m m' : gmap string Value) k' :
  convert_field k render m = Ok m' ->
  holds_int (m !! k') = false -> holds_int (m' !! k') = false.
Proof. intros Hc Hk'. by rewrite (convert_field_keeps _ _ _ _ _ Hc Hk'). Qed.

Lemma converted_done `{LocalTime} (m m' : gmap string Value) k :
  converted m = Ok m' -> temporal k -> holds_int (m' !! k) = false.
Proof.
  intros (m1 & m2 & m3 & H1 & H2 & H3 & H4)%converted_inv Hk.
  pose proof (convert_field_done _ _ _ _ H1) as D1.
  pose proof (convert_field_done _ _ _ _ H2) as D2.
  pose proof (convert_field_done _ _ _ _ H3) as D3.
  pose proof (convert_field_done _ _ _ _ H4) as D4.
  destruct Hk as [-> | [-> | [-> | ->]]]; eauto using convert_field_stays.
Qed.

Lemma converted_dom `{LocalTime} (m m' : gmap string Value) :
  converted m = Ok m' -> dom m' = dom m.
Proof.
  intros (m1 & m2 & m3 & H1 & H2 & H3 & H4)%converted_inv.
  rewrite (convert_field_dom _ _ _ _ H4), (convert_field_dom _ _ _ _ H3),
    (convert_field_dom _ _ _ _ H2). by apply convert_field_dom in H1.
Qed.

(** A payload without integers under its temporal keys is returned as
    it is. *)
Lemma converted_id `{LocalTime} (m : gmap string Value) :
  (forall k, temporal k -> holds_int (m !! k) = false) -> converted m = Ok m.
Proof.
  intros Hm. unfold converted, and_then, temporal in *.
  rewrite !convert_field_not_int; auto 6.
Qed.
Lemma converted_event_date `{LocalTime} (m m' : gmap string Value) :
  converted m = Ok m' -> holds_int (m !! "event_date") = true ->
  exists d, epoch_plus_days (the_int (m !! "event_date")) = Some d
    /\ m' !! "event_date" = Some (VStr (strftime_Ymd d)).
Proof.
  intros (m1 & m2 & m3 & H1 & H2 & H3 & H4)%converted_inv Hk.
  rewrite (convert_field_other _ _ _ _ "event_date" H4) by done.
  rewrite (convert_field_other _ _ _ _ "event_date" H3) by done.
  rewrite (convert_field_other _ _ _ _ "event_date" H2) by done.
  destruct (convert_field_inv _ _ _ _ H1) as [[? _]|(_ & s & Hs & ->)]; [congruence|].
  unfold render_event_date in Hs.
  destruct (epoch_plus_days _) as [d|]; [|done].
  injection Hs as <-. exists d. by rewrite lookup_insert_eq.
Qed.


Lemma converted_rendered `{LocalTime} (m m' : gmap string Value) k :
  converted m = Ok m' -> temporal k -> holds_int (m !! k) = true ->
  exists s, m' !! k = Some (VStr s)
    /\ (k = "event_date" -> render_event_date (the_int (m !! k)) = Ok s)
    /\ (k = "event_time" -> render_event_time (the_int (m !! k)) = Ok s)
    /\ (k = "created_at" \/ k = "updated_at" ->
          fromtimestamp_strftime (the_int (m !! k)) = Ok s).
Proof.
  intros (m1 & m2 & m3 & H1 & H2 & H3 & H4)%converted_inv Hk Hint.
  destruct Hk as [-> | [-> | [-> | ->]]].
  - rewrite (convert_field_other _ _ _ _ "event_date" H4) by done.
    rewrite (convert_field_other _ _ _ _ "event_date" H3) by done.
    rewrite (convert_field_other _ _ _ _ "event_date" H2) by done.
    destruct (convert_field_inv _ _ _ _ H1) as [[? _]|(_ & s & Hs & ->)]; [congruence|].
    exists s. rewrite lookup_insert_eq.
    repeat split; try done; by intros [?|?].
  - rewrite (convert_field_other _ _ _ _ "event_time" H4) by done.
    rewrite (convert_field_other _ _ _ _ "event_time" H3) by done.
    rewrite <- (convert_field_other _ _ _ _ "event_time" H1) in Hint |- * by done.
    destruct (convert_field_inv _ _ _ _ H2) as [[? _]|(_ & s & Hs & ->)]; [congruence|].
    exists s. rewrite lookup_insert_eq.
    repeat split; try done; by intros [?|?].
  - rewrite (convert_field_other _ _ _ _ "created_at" H4) by done.
    rewrite <- (convert_field_other _ _ _ _ "created_at" H1) in Hint |- * by done.
    rewrite <- (convert_field_other _ _ _ _ "created_at" H2) in Hint |- * by done.
    destruct (convert_field_inv _ _ _ _ H3) as [[? _]|(_ & s & Hs & ->)]; [congruence|].
    exists s. rewrite lookup_insert_eq.
    repeat split; try done; by intros [?|?].
  - rewrite <- (convert_field_other _ _ _ _ "updated_at" H1) in Hint |- * by done.
    rewrite <- (convert_field_other _ _ _ _ "updated_at" H2) in Hint |- * by done.
    rewrite <- (convert_field_other _ _ _ _ "updated_at" H3) in Hint |- * by done.
    destruct (convert_field_inv _ _ _ _ H4) as [[? _]|(_ & s & Hs & ->)]; [congruence|].
    exists s. rewrite lookup_insert_eq.
    repeat split; try done; by intros [?|?].
Qed.

Lemma render_event_date_ok n :
  (exists s, render_event_date n = Ok s) <-> MIN_DAYS <= n <= MAX_DAYS.
Proof.
  unfold render_event_date, MIN_DAYS, MAX_DAYS. split.
  - intros [s Hs]. destruct (decide (-719162 <= n <= 2932896)) as [|Hn]; [done|].
    by rewrite (epoch_plus_days_out_of_range _ Hn) in Hs.
  - intros Hn. rewrite epoch_plus_days_in_range by done. eauto.
Qed.

(** [convert_dates] returns exactly on the convertible payloads. *)
Lemma converted_ok_iff `{LocalTime} (m : gmap string Value) :
  (exists m', converted m = Ok m') <-> convertible m.
Proof.
  unfold convertible, renders. split.
  - intros [m' Hc].
    pose proof (converted_rendered m m' "event_date" Hc) as Hd.
    pose proof (converted_rendered m m' "created_at" Hc) as Hca.
    pose proof (converted_rendered m m' "updated_at" Hc) as Hua.
    unfold temporal in *. split; [|split].
    + intros Hi. apply render_event_date_ok.
      destruct Hd as (s & _ & Hs & _); naive_solver.
    + intros Hi. destruct Hca as (s & _ & _ & _ & Hs); naive_solver.
    + intros Hi. destruct Hua as (s & _ & _ & _ & Hs); naive_solver.
  - intros (Hd & Hca & Hua).
    unfold converted, and_then.
    destruct (convert_field "event_date" _ m) as [m1|e] eqn:H1.
    2:{ unfold convert_field in H1.
        destruct (holds_int (m !! "event_date")) eqn:Hi; [|done].
        destruct (proj2 (render_event_date_ok _) (Hd eq_refl)) as [s Hs].
        by rewrite Hs in H1. }
    destruct (convert_field "event_time" _ m1) as [m2|e] eqn:H2.
    2:{ unfold convert_field, render_event_time in H2.
        by destruct (holds_int (m1 !! "event_time")). }
    destruct (convert_field "created_at" _ m2) as [m3|e] eqn:H3.
    2:{ unfold convert_field in H3.
        rewrite (convert_field_other _ _ _ _ "created_at" H2) in H3 by done.
        rewrite (convert_field_other _ _ _ _ "created_at" H1) in H3 by done.
        destruct (holds_int (m !! "created_at")) eqn:Hi; [|done].
        destruct (Hca eq_refl) as [s Hs]. by rewrite Hs in H3. }
    destruct (convert_field "updated_at" _ m3) as [m4|e] eqn:H4; [eauto|].
    unfold convert_field in H4.
    rewrite (convert_field_other _ _ _ _ "updated_at" H3) in H4 by done.
    rewrite (convert_field_other _ _ _ _ "updated_at" H2) in H4 by done.
    rewrite (convert_field_other _ _ _ _ "updated_at" H1) in H4 by done.
    destruct (holds_int (m !! "updated_at")) eqn:Hi; [|done].
    destruct (Hua eq_refl) as [s Hs]. by rewrite Hs in H4.
Qed.
Lemma expo_convertible : @convertible utc_time expo_row.
Proof.
  unfold convertible, renders. split; [|split].
  - intros _. vm_compute. split; discriminate.
  - intros _. eexists. vm_compute. reflexivity.
  - vm_compute. discriminate.
Qed.



(** C10.  [convert_dates] does not change its argument: whether it
    returns or raises, the dictionary it was given and every other object
    of the store are as before, nothing is posted or printed, and what it
    returns is a new object holding the converted payload. *)
Theorem convert_dates_leaves_argument `{LocalTime}
    (w : World) (l : positive) (m : gmap string Value) :
  heap w !! l = Some m ->
  forall w', w' = (convert_dates l w).2 ->
  heap w' !! l = Some m
  /\ (forall l0, l0 ∈ dom (heap w) -> heap w' !! l0 = heap w !! l0)
  /\ weaviate w' = weaviate w /\ stdout w' = stdout w
  /\ (forall l', (convert_dates l w).1 = Ok l' ->
        (l' ∉ dom (heap w)) /\ l' ≠ l
        /\ (exists m', converted m = Ok m' /\ heap w' !! l' = Some m')
        /\ dom (heap w') = {[l']} ∪ dom (heap w)).
Proof.
  intros Hl w' ->. pose proof (convert_dates_run w l m Hl) as Hrun. simpl in Hrun.
  set (l' := fresh (dom (heap w))) in *.
  assert (Hfresh : l' ∉ dom (heap w)) by apply is_fresh.
  assert (Hne : l' ≠ l).
  { intros ->. apply Hfresh, elem_of_dom. eauto. }
  assert (Hframe : forall m' l0, l0 ∈ dom (heap w) ->
    <[l' := m']> (heap w) !! l0 = heap w !! l0).
  { intros m' l0 Hl0. apply lookup_insert_ne. by intros ->. }
  destruct (converted m) as [m'|e].
  - rewrite Hrun. simpl. rewrite lookup_insert_ne by done.
    do 4 (split; [by auto|]). intros l1 [= <-].
    do 2 (split; [done|]). split.
    + exists m'. by rewrite lookup_insert_eq.
    + by rewrite dom_insert_L.
  - destruct Hrun as [m' Hrun]. rewrite Hrun. simpl.
    rewrite lookup_insert_ne by done. by do 4 (split; [by auto|]).
Qed.

Lemma convert_dates_leaves_argument_witness :
  heap (world_with expo_row) !! 1%positive = Some expo_row
  /\ heap (@convert_dates utc_time 1%positive (world_with expo_row)).2 !! 1%positive
     = Some expo_row.
Proof.
  split; [reflexivity|].
  exact (proj1 (@convert_dates_leaves_argument utc_time (world_with expo_row)
                  1%positive expo_row eq_refl _ eq_refl)).
Defined.

(** C8.  A payload whose temporal fields hold no integer comes back
    unchanged (in a new dictionary), and converting the result of a
    conversion once more succeeds and gives the same dictionary. *)
Theorem convert_dates_idempotent `{LocalTime}
    (w : World) (l : positive) (m : gmap string Value) :
  heap w !! l = Some m ->
  ((forall k, temporal k -> holds_int (m !! k) = false) ->
     convert_dates l w
       = (Ok (fresh (dom (heap w))),
          set_heap (<[fresh (dom (heap w)) := m]> (heap w)) w))
  /\ (forall l1 w1, convert_dates l w = (Ok l1, w1) ->
        exists l2 w2 m1,
          convert_dates l1 w1 = (Ok l2, w2)
          /\ heap w1 !! l1 = Some m1 /\ heap w2 !! l2 = Some m1
          /\ (forall k, temporal k -> holds_int (m1 !! k) = false)).
Proof.
  intros Hl. pose proof (convert_dates_run w l m Hl) as Hrun. simpl in Hrun.
  split.
  - intros Hm. by rewrite (converted_id m Hm) in Hrun.
  - intros l1 w1 Hret.
    destruct (converted m) as [m1|e] eqn:Hc.
    2:{ destruct Hrun as [m' Hrun]. congruence. }
    rewrite Hret in Hrun. injection Hrun as -> ->.
    assert (Hdone : forall k, temporal k -> holds_int (m1 !! k) = false)
      by (intros k; by apply (converted_done m)).
    set (w1 := set_heap _ w).
    assert (Hl1 : heap w1 !! fresh (dom (heap w)) = Some m1)
      by apply lookup_insert_eq.
    pose proof (convert_dates_run w1 _ m1 Hl1) as Hrun1. simpl in Hrun1.
    rewrite (converted_id m1 Hdone) in Hrun1.
    eexists _, _, m1. split; [exact Hrun1|].
    split; [done|]. split; [|done]. apply lookup_insert_eq.
Qed.

Lemma convert_dates_idempotent_witness :
  heap (world_with decoded_row) !! 1%positive = Some decoded_row
  /\ @convert_dates utc_time 1%positive (world_with decoded_row)
     = (Ok 2%positive,
        set_heap (<[2%positive := decoded_row]> (heap (world_with decoded_row)))
          (world_with decoded_row)).
Proof.
  split; [reflexivity|].
  apply (proj1 (@convert_dates_idempotent utc_time (world_with decoded_row)
                  1%positive decoded_row eq_refl)).
  intros k [-> | [-> | [-> | ->]]]; reflexivity.
Defined.

(** C4 as stated fails: an event dated 10000-01-01 makes [convert_dates]
    raise [OverflowError]. *)
Lemma convert_dates_raises_overflow :
  (@convert_dates utc_time 1%positive (world_with far_row)).1 = Raise OverflowError.
Proof. vm_compute. reflexivity. Qed.

(** C4, amended.  On a payload whose integer temporal fields are in range
    (non-integer ones always are) [convert_dates] does not raise: every
    temporal field is either converted to a string or left holding its raw
    value, all other fields are returned as they were, and no key is added
    or lost. *)
Theorem convert_dates_total_on_convertible `{LocalTime}
    (w : World) (l : positive) (m : gmap string Value) :
  heap w !! l = Some m ->
  convertible m ->
  exists m',
    convert_dates l w
      = (Ok (fresh (dom (heap w))),
         set_heap (<[fresh (dom (heap w)) := m']> (heap w)) w)
    /\ (forall k, temporal k ->
          (holds_int (m !! k) = false /\ m' !! k = m !! k)
          \/ (holds_int (m !! k) = true /\ exists s, m' !! k = Some (VStr s)))
    /\ (forall k, ~ temporal k -> m' !! k = m !! k)
    /\ dom m' = dom m.
Proof.
  intros Hl Hconv.
  destruct (proj2 (converted_ok_iff m) Hconv) as [m' Hc].
  exists m'. pose proof (convert_dates_run w l m Hl) as Hrun. simpl in Hrun.
  rewrite Hc in Hrun. split; [done|]. split; [|split].
  - intros k Hk. destruct (holds_int (m !! k)) eqn:Hi.
    + right. split; [done|].
      destruct (converted_rendered m m' k Hc Hk Hi) as (s & Hs & _). eauto.
    + left. split; [done|]. by apply converted_keeps.
  - intros k Hk. by apply converted_other.
  - by apply converted_dom.
Qed.

Lemma convert_dates_total_on_convertible_witness :
  heap (world_with expo_row) !! 1%positive = Some expo_row
  /\ @convertible utc_time expo_row
  /\ exists m' : gmap string Value,
       @convert_dates utc_time 1%positive (world_with expo_row)
         = (Ok 2%positive,
            set_heap (<[2%positive := m']> (heap (world_with expo_row)))
              (world_with expo_row))
       /\ m' !! "title" = Some (VStr "Expo").
Proof.
  split; [reflexivity|]. split; [exact expo_convertible|].
  destruct (@convert_dates_total_on_convertible utc_time (world_with expo_row)
              1%positive expo_row eq_refl expo_convertible)
    as (m' & Hrun & _ & Hother & _).
  exists m'. split; [exact Hrun|].
  rewrite Hother; [reflexivity|].
  intros [? | [? | [? | ?]]]; discriminate.
Defined.

(** A payload whose temporal fields hold no integer is convertible. *)
Lemma not_int_convertible `{LocalTime} (m : gmap string Value) :
  (forall k, temporal k -> holds_int (m !! k) = false) -> convertible m.
Proof.
  intros Hm. unfold convertible, renders, temporal in *.
  rewrite !Hm by auto 6. done.
Qed.

(** Outside the convertible payloads [convert_dates] raises. *)
Lemma convert_dates_raises `{LocalTime} (w : World) l (m : gmap string Value) :
  heap w !! l = Some m -> ~ convertible m ->
  exists e, (convert_dates l w).1 = Raise e.
Proof.
  intros Hl Hn. pose proof (convert_dates_run w l m Hl) as Hrun. simpl in Hrun.
  destruct (converted m) as [m'|e] eqn:Hc.
  - destruct Hn. apply converted_ok_iff. eauto.
  - destruct Hrun as [m' Hrun]. exists e. by rewrite Hrun.
Qed.
Lemma send_to_weaviate_run `{LocalTime} w l (m : gmap string Value) :
  heap w !! l = Some m ->
  match converted m with
  | Ok c =>
      send_to_weaviate l w
        = (Ok tt, posted (fresh (dom (heap w))) (cross_referenced c) w)
  | Raise e =>
      exists h', send_to_weaviate l w = (Raise e, set_heap h' w)
  end.
Proof.
  intros Hl. pose proof (convert_dates_run w l m Hl) as Hrun. simpl in Hrun.
  destruct (converted m) as [c|e]; unfold send_to_weaviate; unfold bind at 1.
  - rewrite Hrun. destruct w as [h idx up out]. simpl.
    unfold posted, cross_referenced. simpl.
    generalize (fresh (dom h)). intros l'.
    cbv [bind dict_pop deref modify ret when dict_set try_except requests_post
         gets log set_heap set_weaviate heap weaviate weaviate_up stdout post_id
         post_class post_properties].
    rewrite lookup_insert_eq.
    destruct (truthy _); rewrite !lookup_insert_eq, !insert_insert_eq;
      by destruct up.
  - destruct Hrun as [m' Hrun]. eexists. by rewrite Hrun.
Qed.
Lemma handle_message_row `{LocalTime} (message : Message) w (row : gmap string Value) :
  after message = Some row -> row ≠ ∅ ->
  handle_message message w
    = send_to_weaviate (fresh (dom (heap w)))
        (set_heap (<[fresh (dom (heap w)) := row]> (heap w)) (received message w)).
Proof.
  intros Ha Hrow. unfold handle_message, received. rewrite Ha.
  rewrite bool_decide_eq_false_2 by done. by destruct w as [h idx up out].
Qed.

Lemma handle_message_skip `{LocalTime} (message : Message) w :
  after message = None \/ after message = Some ∅ ->
  handle_message message w
    = (Ok tt, mkWorld (heap w) (weaviate w) (index_reachable message)
                (stdout w ++ [LogReceived (after message); LogSkipping])).
Proof.
  intros [Ha|Ha]; unfold handle_message; rewrite Ha;
    rewrite ?bool_decide_eq_true_2 by done; destruct w as [h idx up out];
    cbv [bind modify log set_weaviate_up negb heap weaviate weaviate_up stdout];
    by rewrite <- app_assoc.
Qed.






Lemma handle_delivery `{LocalTime} w (row c : gmap string Value) :
  row ≠ ∅ -> converted row = Ok c ->
  exists h' out',
    handle_message (delivery row) w
    = (Ok tt,
       mkWorld h'
         (weaviate w
            ++ [mkIndexObject (length (weaviate w)) WEAVIATE_CLASS (cross_referenced c)])
         true out').
Proof.
  intros Hrow Hc.
  rewrite (handle_message_row (delivery row) w row eq_refl Hrow).
  set (w1 := set_heap _ _).
  assert (Hl : heap w1 !! fresh (dom (heap w)) = Some row) by apply lookup_insert_eq.
  pose proof (send_to_weaviate_run w1 _ row Hl) as Hrun. rewrite Hc in Hrun.
  rewrite Hrun. unfold posted. simpl. eauto.
Qed.

(** An index that cannot be reached costs the message, not the loop. *)
Lemma handle_message_unreachable `{LocalTime} w (row c : gmap string Value) :
  row ≠ ∅ -> converted row = Ok c ->
  exists h' out',
    handle_message (mkMessage (Some row) false) w
    = (Ok tt, mkWorld h' (weaviate w) false (out' ++ [LogSendError ConnectionError])).
Proof.
  intros Hrow Hc.
  rewrite (handle_message_row (mkMessage (Some row) false) w row eq_refl Hrow).
  set (w1 := set_heap _ _).
  assert (Hl : heap w1 !! fresh (dom (heap w)) = Some row) by apply lookup_insert_eq.
  pose proof (send_to_weaviate_run w1 _ row Hl) as Hrun. rewrite Hc in Hrun.
  rewrite Hrun. unfold posted. simpl. eauto.
Qed.

(** A row that is not convertible ends the loop: nothing after it is
    looked at. *)
Lemma main_aborts `{LocalTime} w (row : gmap string Value) up rest :
  row ≠ ∅ -> ~ convertible row ->
  exists e w',
    main true (mkMessage (Some row) up :: rest) w = (Raise e, w')
    /\ weaviate w' = weaviate w.
Proof.
  intros Hrow Hn.
  destruct (converted row) as [c|e] eqn:Hc.
  { destruct Hn. apply converted_ok_iff. eauto. }
  exists e.
  unfold main. unfold bind at 1. unfold log at 1, modify. unfold bind at 1.
  unfold log at 1, modify. simpl. unfold bind at 1.
  set (w0 := mkWorld _ _ _ _).
  rewrite (handle_message_row (mkMessage (Some row) up) w0 row eq_refl Hrow).
  set (w1 := set_heap _ _).
  assert (Hl : heap w1 !! fresh (dom (heap w0)) = Some row) by apply lookup_insert_eq.
  pose proof (send_to_weaviate_run w1 _ row Hl) as Hrun. rewrite Hc in Hrun.
  destruct Hrun as [h' Hrun]. rewrite Hrun. eauto.
Qed.

(** C2 as stated fails: the same row delivered twice leaves two
    documents with the same [postgres_id] in the index. *)
Lemma duplicate_delivery_two_documents :
  map (fun o => (obj_uuid o, obj_properties o !! "postgres_id"))
    (weaviate (@main utc_time true [delivery expo_row; delivery expo_row] empty_store).2)
  = [(0%nat, Some (VInt 7)); (1%nat, Some (VInt 7))].
Proof. vm_compute. reflexivity. Qed.

(** C2, amended.  [send_to_weaviate] posts an object creation request
    that carries no document identity, so each delivery of a row adds one
    document: the same row delivered twice yields two documents with equal
    properties under two identities. *)
Theorem duplicate_delivery_posts_twice `{LocalTime}
    (w : World) (row : gmap string Value) :
  row ≠ ∅ ->
  convertible row ->
  exists c w',
    converted row = Ok c
    /\ for_each [delivery row; delivery row] handle_message w = (Ok tt, w')
    /\ weaviate w'
       = (weaviate w
            ++ [mkIndexObject (length (weaviate w)) WEAVIATE_CLASS (cross_referenced c);
                mkIndexObject (S (length (weaviate w))) WEAVIATE_CLASS
                  (cross_referenced c)])%list.
Proof.
  intros Hrow Hconv.
  destruct (proj2 (converted_ok_iff row) Hconv) as [c Hc]. exists c.
  destruct (handle_delivery w row c Hrow Hc) as (h1 & out1 & H1).
  set (w1 := mkWorld h1 _ true out1) in H1.
  destruct (handle_delivery w1 row c Hrow Hc) as (h2 & out2 & H2).
  eexists. split; [done|]. simpl. unfold bind. rewrite H1, H2. split; [done|].
  simpl. rewrite length_app, <- app_assoc. simpl.
  by rewrite Nat.add_1_r.
Qed.

Lemma expo_row_not_empty : expo_row ≠ ∅.
Proof. unfold expo_row. apply insert_non_empty. Qed.

Lemma duplicate_delivery_posts_twice_witness :
  expo_row ≠ ∅
  /\ @convertible utc_time expo_row
  /\ length (weaviate
       (@for_each World _ [delivery expo_row; delivery expo_row]
          (@handle_message utc_time) empty_store).2) = 2%nat.
Proof.
  split; [exact expo_row_not_empty|]. split; [exact expo_convertible|].
  destruct (@duplicate_delivery_posts_twice utc_time empty_store expo_row
              expo_row_not_empty expo_convertible) as (c & w' & _ & Hrun & Hidx).
  rewrite Hrun. simpl. rewrite Hidx. reflexivity.
Defined.

(** C6.  The index sync loop does not survive a conversion error: with
    an event dated 10000-01-01 first in the stream, [main] raises
    [OverflowError] and the valid message behind it is never handled. *)
Theorem main_stops_at_unconvertible_row :
  let run := @main utc_time true [delivery far_row; delivery expo_row] empty_store in
  run.1 = Raise OverflowError
  /\ weaviate run.2 = []
  /\ stdout run.2
     = [LogStarting; LogConnected; LogReceived (Some far_row)].
Proof. vm_compute. repeat split; reflexivity. Qed.

(** ** The registration e-mail consumer *)

Lemma bind_run {St A B} (c : M St A) (k : A -> M St B) s a s' :
  c s = (Ok a, s') -> bind c k s = k a s'.
Proof. intros Hc. unfold bind. by rewrite Hc. Qed.

Lemma bind_run_raise {St A B} (c : M St A) (k : A -> M St B) s e s' :
  c s = (Raise e, s') -> bind c k s = (Raise e, s').
Proof. intros Hc. unfold bind. by rewrite Hc. Qed.

Lemma try_except_run {St A} (c : M St A) h s a s' :
  c s = (Ok a, s') -> try_except c h s = (Ok a, s').
Proof. intros Hc. unfold try_except. by rewrite Hc. Qed.

Lemma try_except_run_raise {St A} (c : M St A) h s e s' :
  c s = (Raise e, s') -> try_except c h s = h e s'.
Proof. intros Hc. unfold try_except. by rewrite Hc. Qed.

(** A handler that cannot raise makes the whole [try] unable to raise. *)
Lemma try_except_total {St A} (c : M St A) h s :
  (forall e s0, exists a s1, h e s0 = (Ok a, s1)) ->
  exists a s', try_except c h s = (Ok a, s').
Proof.
  intros Hh. unfold try_except. destruct (c s) as [[a|e] s']; eauto.
Qed.


Lemma process_skipped (message : gmap string Value) r :
  message ≠ ∅ ->
  skipped (record_status message) (record_email_sent message) = true ->
  process_registration_event message r
  = (Ok tt,
     with_logged
       [DebugSkipping (record_id message) (record_status message)
          (record_email_sent message)] r).
Proof.
  intros Hne Hs. unfold process_registration_event, try_except.
  rewrite bool_decide_eq_false_2 by done.
  fold (record_id message) (record_status message) (record_email_sent message).
  by rewrite Hs.
Qed.

Lemma prepare_not_empty details x : prepare details = Ok x -> details ≠ ∅.
Proof. intros Hp ->. by vm_compute in Hp. Qed.

Lemma not_skipped_not_empty (message : gmap string Value) :
  skipped (record_status message) (record_email_sent message) = false -> message ≠ ∅.
Proof. intros Hs ->. by vm_compute in Hs. Qed.

(** *** The services *)

Lemma get_registration_details_run registration_id r :
  get_registration_details registration_id r
  = match db_connects r with
    | true :: dbs =>
        (Ok (match registration_id with
             | VInt k => registration_details r !! k
             | _ => None
             end),
         mkMailroom (event_registrations r) (registration_details r)
           (current_timestamp r) (outbox r) dbs (smtp_connects r)
           (kafka_connects r)
           (calls r ++ [CallGetRegistrationDetails registration_id]) (logged r))
    | _ =>
        (Ok None,
         mkMailroom (event_registrations r) (registration_details r)
           (current_timestamp r) (outbox r) (tail (db_connects r)) (smtp_connects r)
           (kafka_connects r)
           (calls r ++ [CallGetRegistrationDetails registration_id])
           (logged r ++ [ErrorGetDetails ConnectionError]))
    end.
Proof.
  destruct r as [regs view now out dbc smc kc cs lg].
  destruct dbc as [|[] dbs]; reflexivity.
Qed.

Lemma mark_email_sent_run registration_id r :
  mark_email_sent registration_id r
  = match db_connects r with
    | true :: dbs =>
        (Ok true,
         mkMailroom
           (match registration_id with
            | VInt k =>
                alter (fun _ => mkRegistration true (Some (current_timestamp r))) k
                  (event_registrations r)
            | _ => event_registrations r
            end)
           (registration_details r)
           (current_timestamp r) (outbox r) dbs (smtp_connects r)
           (kafka_connects r)
           (calls r ++ [CallMarkEmailSent registration_id])
           (logged r ++ [InfoMarked registration_id]))
    | _ =>
        (Ok false,
         mkMailroom (event_registrations r) (registration_details r)
           (current_timestamp r) (outbox r) (tail (db_connects r)) (smtp_connects r)
           (kafka_connects r)
           (calls r ++ [CallMarkEmailSent registration_id])
           (logged r ++ [ErrorMark ConnectionError]))
    end.
Proof.
  destruct r as [regs view now out dbc smc kc cs lg].
  destruct dbc as [|[] dbs]; [reflexivity| |reflexivity].
  by destruct registration_id.
Qed.

Lemma send_registration_confirmation_run user_email user_name event_details r :
  send_registration_confirmation user_email user_name event_details r
  = match confirmation user_email user_name event_details, smtp_connects r with
    | Ok mail, true :: ss =>
        (Ok true,
         mkMailroom (event_registrations r) (registration_details r)
           (current_timestamp r) (outbox r ++ [mail]) (db_connects r) ss
           (kafka_connects r)
           (calls r ++ [CallSendRegistrationConfirmation user_email user_name])
           (logged r ++ [InfoEmailSent user_email]))
    | Ok mail, _ =>
        (Ok false,
         mkMailroom (event_registrations r) (registration_details r)
           (current_timestamp r) (outbox r) (db_connects r) (tail (smtp_connects r))
           (kafka_connects r)
           (calls r ++ [CallSendRegistrationConfirmation user_email user_name])
           (logged r ++ [ErrorSendEmail user_email ConnectionError]))
    | Raise e, _ =>
        (Ok false,
         mkMailroom (event_registrations r) (registration_details r)
           (current_timestamp r) (outbox r) (db_connects r) (smtp_connects r)
           (kafka_connects r)
           (calls r ++ [CallSendRegistrationConfirmation user_email user_name])
           (logged r ++ [ErrorSendEmail user_email e]))
    end.
Proof.
  destruct r as [regs view now out dbc smc kc cs lg].
  unfold send_registration_confirmation, confirmation, lookup_key, and_then,
    _create_email_template, getitem.
  destruct (event_details !! "title") as [title|]; [|reflexivity].
  destruct smc as [|[] ss]; reflexivity.
Qed.

Lemma logger_run l r : logger l r = (Ok tt, with_logged [l] r).
Proof. reflexivity. Qed.

(** [process_registration_event] past the gate, in terms of the three
    services it calls. *)
Lemma process_run (message : gmap string Value) r :
  skipped (record_status message) (record_email_sent message) = false ->
  let id := record_id message in
  let f := get_registration_details id (with_logged [InfoProcessing id] r) in
  process_registration_event message r
  = match f.1 with
    | Ok (Some details) =>
        if bool_decide (details = ∅)
        then (Ok tt, with_logged [ErrorCouldNotFetch id] f.2)
        else
          match prepare details with
          | Ok (user_email, user_name, event_details) =>
              let s :=
                send_registration_confirmation user_email user_name event_details f.2 in
              match s.1 with
              | Ok true =>
                  (Ok tt, with_logged [InfoProcessed id] (mark_email_sent id s.2).2)
              | _ => (Ok tt, with_logged [ErrorFailedToSend id] s.2)
              end
          | Raise e => (Ok tt, with_logged [ErrorProcessingEvent e] f.2)
          end
    | _ => (Ok tt, with_logged [ErrorCouldNotFetch id] f.2)
    end.
Proof.
  intros Hs id f.
  pose proof (not_skipped_not_empty _ Hs) as Hne.
  unfold process_registration_event.
  rewrite bool_decide_eq_false_2 by done.
  fold (record_id message) (record_status message) (record_email_sent message).
  rewrite Hs. fold id.
  unfold try_except. unfold bind at 1. rewrite logger_run.
  unfold bind at 1. fold f.
  assert (Hf : exists o, f.1 = Ok o).
  { unfold f. rewrite get_registration_details_run.
    destruct (db_connects _) as [|[] ?]; simpl; eauto. }
  destruct Hf as [o Hf]. destruct f as [f1 r2]. simpl in *. subst f1.
  destruct o as [details|]; [|reflexivity].
  destruct (bool_decide (details = ∅)); [reflexivity|].
  unfold prepare, lookup_key, and_then, getitem.
  destruct (details !! "event_title") as [title|]; [|reflexivity].
  destruct (details !! "event_description") as [description|]; [|reflexivity].
  destruct (details !! "event_category") as [category|]; [|reflexivity].
  destruct (details !! "event_location") as [location|]; [|reflexivity].
  destruct (details !! "event_date") as [event_date|]; [|reflexivity].
  destruct (details !! "event_time") as [event_time|]; [|reflexivity].
  destruct (details !! "organizer") as [organizer|]; [|reflexivity].
  destruct (details !! "email") as [user_email|]; [|reflexivity].
  destruct (details !! "full_name") as [full_name|]; [|reflexivity].
  assert (Htail : forall user_name,
    (let (r0, s') :=
       (let (r1, s'0) :=
          send_registration_confirmation user_email user_name
            (list_to_map
               [("title", title); ("description", description);
                ("category", category); ("location", location);
                ("event_date", or_tbd event_date);
                ("event_time", or_tbd event_time); ("organizer", organizer)]) r2 in
        match r1 with
        | Ok a0 =>
            (if a0 : bool
             then mark_email_sent id;; logger (InfoProcessed id)
             else logger (ErrorFailedToSend id)) s'0
        | Raise e => (Raise e, s'0)
        end) in
     match r0 with
     | Ok a => (Ok a, s')
     | Raise e => logger (ErrorProcessingEvent e) s'
     end)
    = match
        (send_registration_confirmation user_email user_name
           (list_to_map
              [("title", title); ("description", description);
               ("category", category); ("location", location);
               ("event_date", or_tbd event_date);
               ("event_time", or_tbd event_time); ("organizer", organizer)]) r2).1
      with
      | Ok true =>
          (Ok tt,
           with_logged [InfoProcessed id]
             (mark_email_sent id
                (send_registration_confirmation user_email user_name
                   (list_to_map
                      [("title", title); ("description", description);
                       ("category", category); ("location", location);
                       ("event_date", or_tbd event_date);
                       ("event_time", or_tbd event_time); ("organizer", organizer)])
                   r2).2).2)
      | _ =>
          (Ok tt,
           with_logged [ErrorFailedToSend id]
             (send_registration_confirmation user_email user_name
                (list_to_map
                   [("title", title); ("description", description);
                    ("category", category); ("location", location);
                    ("event_date", or_tbd event_date);
                    ("event_time", or_tbd event_time); ("organizer", organizer)])
                r2).2)
      end).
  { intros user_name. rewrite send_registration_confirmation_run.
    destruct (confirmation _ _ _) as [mail|e]; [destruct (smtp_connects r2) as [|[] ss]|];
      simpl; try reflexivity.
    unfold bind. rewrite mark_email_sent_run.
    by destruct (db_connects r2) as [|[] dbs]. }
  cbv beta iota delta [bind ret].
  destruct (sql_truthy full_name).
  - etrans; [|etrans; [exact (Htail full_name)|]]; reflexivity.
  - destruct (details !! "username") as [username|]; [|reflexivity].
    etrans; [|etrans; [exact (Htail username)|]]; reflexivity.
Qed.

Lemma not_skipped_iff status email_sent :
  skipped status email_sent = false
  <-> status = VStr "registered" /\ truthy email_sent = false.
Proof.
  unfold skipped. rewrite orb_false_iff, negb_false_iff, bool_decide_eq_true. tauto.
Qed.

(** Every way a record that passed the gate can end. *)
Lemma process_outcomes (message : gmap string Value) r :
  skipped (record_status message) (record_email_sent message) = false ->
  let id := record_id message in
  let r' := (process_registration_event message r).2 in
  (process_registration_event message r).1 = Ok tt
  /\ ((outbox r' = outbox r
       /\ event_registrations r' = event_registrations r
       /\ (calls r' = calls r ++ [CallGetRegistrationDetails id]
           \/ exists ue un,
               calls r' = calls r ++ [CallGetRegistrationDetails id;
                                      CallSendRegistrationConfirmation ue un]))
      \/ (exists k details ue un ed mail dbs ss,
            id = VInt k
            /\ db_connects r = true :: dbs
            /\ smtp_connects r = true :: ss
            /\ registration_details r !! k = Some details
            /\ prepare details = Ok (ue, un, ed)
            /\ confirmation ue un ed = Ok mail
            /\ outbox r' = outbox r ++ [mail]
            /\ calls r' = calls r ++ [CallGetRegistrationDetails id;
                                      CallSendRegistrationConfirmation ue un;
                                      CallMarkEmailSent id]
            /\ event_registrations r'
               = match dbs with
                 | true :: _ =>
                     alter (fun _ => mkRegistration true (Some (current_timestamp r))) k
                       (event_registrations r)
                 | _ => event_registrations r
                 end)).
Proof.
  intros Hs id r'. subst r'. rewrite (process_run message r Hs). fold id.
  rewrite get_registration_details_run.
  destruct r as [regs view now out dbc smc kc cs lg]. simpl.
  destruct dbc as [|[] dbs]; simpl; [by auto 10| |by auto 10].
  destruct id as [| | k | |] eqn:Hid; simpl; try by auto 10.
  destruct (view !! k) as [details|] eqn:Hrow; simpl; [|by auto 10].
  destruct (bool_decide (details = ∅)); simpl; [by auto 10|].
  destruct (prepare details) as [[[ue un] ed]|e] eqn:Hprep; simpl; [|by auto 10].
  rewrite send_registration_confirmation_run. simpl.
  destruct (confirmation ue un ed) as [mail|e] eqn:Hmail; simpl.
  2:{ split; [done|]. left. rewrite <- app_assoc. eauto 10. }
  destruct smc as [|[] ss]; simpl.
  - split; [done|]. left. rewrite <- app_assoc. eauto 10.
  - rewrite mark_email_sent_run. simpl. split; [done|]. right.
    exists k, details, ue, un, ed, mail, dbs, ss.
    destruct dbs as [|[] dbs']; simpl; rewrite <- !app_assoc; simpl; auto 12.
  - split; [done|]. left. rewrite <- app_assoc. eauto 10.
Qed.





(** What [with_logged] leaves alone: no call, no mail, no write, no
    connection. *)
Lemma with_logged_silent lines r :
  calls (with_logged lines r) = calls r
  /\ outbox (with_logged lines r) = outbox r
  /\ event_registrations (with_logged lines r) = event_registrations r
  /\ db_connects (with_logged lines r) = db_connects r
  /\ smtp_connects (with_logged lines r) = smtp_connects r.
Proof. done. Qed.


(** No delivery can take the e-mail consumer's loop down. *)
Lemma on_message_ok value r : exists r', on_message value r = (Ok tt, r').
Proof.
  unfold on_message.
  destruct (try_except_total
    (match value with
     | Some v =>
         if negb (bool_decide (v = ∅)) then process_registration_event v else ret tt
     | None => ret tt
     end)
    (fun e => logger (ErrorProcessingMessage e)) r) as ([] & r' & Hr); [|eauto].
  intros e s0. rewrite logger_run. eauto.
Qed.

Lemma for_each_on_message_ok stream : forall r,
  exists r', for_each stream on_message r = (Ok tt, r').
Proof.
  induction stream as [|value stream IH]; intros r; simpl.
  - unfold ret. eauto.
  - destruct (on_message_ok value r) as [r1 H1].
    destruct (IH r1) as [r2 H2]. exists r2.
    unfold bind. by rewrite H1.
Qed.

(** The messages after any prefix are still handled. *)
Lemma for_each_app {St A} (xs ys : list A) (body : A -> M St unit) s :
  for_each (xs ++ ys) body s
  = match for_each xs body s with
    | (Ok _, s') => for_each ys body s'
    | (Raise e, s') => (Raise e, s')
    end.
Proof.
  revert s. induction xs as [|x xs IH]; intros s; simpl; [done|].
  unfold bind. destruct (body x s) as [[[]|e] s']; [apply IH | done].
Qed.
Lemma dashed_not_tbd a rest : a +:+ "-" +:+ rest ≠ "TBD".
Proof.
  destruct a as [|? [|? [|? [|? ?]]]]; simpl; intros Heq;
    repeat (injection Heq as ? Heq); discriminate.
Qed.


Lemma date_str_not_tbd d : SqlText (py_str (SqlDate d)) ≠ SqlText "TBD".
Proof. intros [= Hd]. by apply dashed_not_tbd in Hd. Qed.


Lemma prepare_inv details ue un ed :
  prepare details = Ok (ue, un, ed) ->
  exists title description category location event_date event_time organizer full_name,
    details !! "event_title" = Some title
    /\ details !! "event_description" = Some description
    /\ details !! "event_category" = Some category
    /\ details !! "event_location" = Some location
    /\ details !! "event_date" = Some event_date
    /\ details !! "event_time" = Some event_time
    /\ details !! "organizer" = Some organizer
    /\ details !! "email" = Some ue
    /\ details !! "full_name" = Some full_name
    /\ (if sql_truthy full_name then un = full_name
        else details !! "username" = Some un)
    /\ ed = <["title" := title]>
            (<["description" := description]>
            (<["category" := category]>
            (<["location" := location]>
            (<["event_date" := or_tbd event_date]>
            (<["event_time" := or_tbd event_time]>
            (<["organizer" := organizer]> ∅)))))).
Proof.
  unfold prepare, lookup_key, and_then. intros Hp.
  destruct (details !! "event_title") as [title|]; [|done].
  destruct (details !! "event_description") as [description|]; [|done].
  destruct (details !! "event_category") as [category|]; [|done].
  destruct (details !! "event_location") as [location|]; [|done].
  destruct (details !! "event_date") as [event_date|]; [|done].
  destruct (details !! "event_time") as [event_time|]; [|done].
  destruct (details !! "organizer") as [organizer|]; [|done].
  destruct (details !! "email") as [user_email|]; [|done].
  destruct (details !! "full_name") as [full_name|]; [|done].
  exists title, description, category, location, event_date, event_time,
    organizer, full_name.
  destruct (sql_truthy full_name).
  - injection Hp as <- <- <-. by repeat split.
  - destruct (details !! "username") as [username|]; [|done].
    injection Hp as <- <- <-. by repeat split.
Qed.

Lemma confirmation_inv ue un ed mail :
  confirmation ue un ed = Ok mail ->
  mail_to mail = ue
  /\ body_user_name (mail_html mail) = py_str un
  /\ body_datetime (mail_html mail) = formatted_datetime ed.
Proof.
  unfold confirmation, and_then, lookup_key.
  destruct (ed !! "title"); [|done]. by intros [= <-].
Qed.



(** ** Starting the e-mail consumer *)

(** Once the broker answers, [run] handles the whole stream and returns. *)
Lemma run_connected stream r ks :
  kafka_connects r = true :: ks -> exists r', run stream r = (Ok tt, r').
Proof.
  intros Hk. unfold run, connect_kafka. simpl seq.
  unfold connect_kafka_from at 1. unfold bind at 1. unfold bind at 1.
  unfold kafka_consumer at 1. rewrite Hk. rewrite logger_run.
  unfold bind at 1. rewrite logger_run.
  apply for_each_on_message_ok.
Qed.

(** Ten refused attempts are fatal: [run] raises before it listens. *)
Lemma run_no_broker stream r ks :
  kafka_connects r = replicate 10 false ++ ks ->
  (run stream r).1 = Raise NoBrokersAvailable
  /\ calls (run stream r).2 = calls r
  /\ outbox (run stream r).2 = outbox r.
Proof.
  intros Hk. destruct r as [regs view now out dbc smc kc cs lg].
  simpl in Hk. subst kc. done.
Qed.

(** * Further properties of the index sync consumer *)

Lemma convert_dates_returns `{LocalTime} w l (m : gmap string Value) :
  heap w !! l = Some m -> convertible m ->
  exists m', converted m = Ok m'
    /\ convert_dates l w
       = (Ok (fresh (dom (heap w))),
          set_heap (<[fresh (dom (heap w)) := m']> (heap w)) w).
Proof.
  intros Hl Hconv. destruct (proj2 (converted_ok_iff m) Hconv) as [m' Hc].
  exists m'. split; [done|].
  pose proof (convert_dates_run w l m Hl) as Hrun. simpl in Hrun.
  by rewrite Hc in Hrun.
Qed.

Lemma converted_date_overflow `{LocalTime} (m : gmap string Value) :
  holds_int (m !! "event_date") = true ->
  ~ (MIN_DAYS <= the_int (m !! "event_date") <= MAX_DAYS) ->
  converted m = Raise OverflowError.
Proof.
  intros Hi Hn. unfold converted, convert_field, render_event_date, and_then.
  rewrite Hi. unfold MIN_DAYS, MAX_DAYS in Hn.
  by rewrite (epoch_plus_days_out_of_range _ Hn).
Qed.

(** X1.  [convert_dates] raises exactly on the payloads that hold an
    integer without a rendering under a temporal key, and an integer
    [event_date] outside -719162 .. 2932896 makes it raise [OverflowError]
    whatever the other fields hold. *)
Theorem convert_dates_raises_iff `{LocalTime}
    (w : World) (l : positive) (m : gmap string Value) :
  heap w !! l = Some m ->
  ((exists e, (convert_dates l w).1 = Raise e) <-> ~ convertible m)
  /\ (holds_int (m !! "event_date") = true ->
      ~ (MIN_DAYS <= the_int (m !! "event_date") <= MAX_DAYS) ->
      (convert_dates l w).1 = Raise OverflowError).
Proof.
  intros Hl. pose proof (convert_dates_run w l m Hl) as Hrun. simpl in Hrun.
  split; [split|].
  - intros [e He] Hconv.
    destruct (proj2 (converted_ok_iff m) Hconv) as [m' Hc].
    rewrite Hc in Hrun. by rewrite Hrun in He.
  - intros Hn. destruct (converted m) as [m'|e] eqn:Hc.
    + destruct Hn. apply converted_ok_iff. eauto.
    + destruct Hrun as [m' Hrun]. exists e. by rewrite Hrun.
  - intros Hi Hn. rewrite (converted_date_overflow m Hi Hn) in Hrun.
    destruct Hrun as [m' Hrun]. by rewrite Hrun.
Qed.

Lemma convert_dates_raises_iff_witness :
  heap (world_with far_row) !! 1%positive = Some far_row
  /\ (@convert_dates utc_time 1%positive (world_with far_row)).1 = Raise OverflowError.
Proof.
  split; [reflexivity|].
  apply (proj2 (@convert_dates_raises_iff utc_time (world_with far_row) 1%positive
                  far_row eq_refl)).
  - reflexivity.
  - vm_compute. intros [_ Hle]. apply Hle. reflexivity.
Defined.

(** X2.  A boolean under a temporal key is taken for the integer it
    stands for: [event_time] becomes [00:00:00] and [event_date] becomes
    1970-01-01 for [False] and 1970-01-02 for [True]. *)
Theorem convert_dates_converts_booleans `{LocalTime}
    (w : World) (l : positive) (m : gmap string Value) :
  heap w !! l = Some m ->
  convertible m ->
  exists m',
    convert_dates l w
      = (Ok (fresh (dom (heap w))),
         set_heap (<[fresh (dom (heap w)) := m']> (heap w)) w)
    /\ (forall b, m !! "event_time" = Some (VBool b) ->
          m' !! "event_time" = Some (VStr "00:00:00"))
    /\ (forall b, m !! "event_date" = Some (VBool b) ->
          m' !! "event_date"
          = Some (VStr (if b then "1970-01-02" else "1970-01-01"))).
Proof.
  intros Hl Hconv.
  destruct (convert_dates_returns w l m Hl Hconv) as (m' & Hc & Hrun).
  exists m'. split; [done|]. split.
  - intros b Hb.
    destruct (converted_rendered m m' "event_time" Hc) as (s & Hs & _ & Hr & _).
    { right. by left. } { by rewrite Hb. }
    specialize (Hr eq_refl). rewrite Hb in Hr. rewrite Hs.
    destruct b; by injection Hr as <-.
  - intros b Hb.
    destruct (converted_rendered m m' "event_date" Hc) as (s & Hs & Hr & _).
    { by left. } { by rewrite Hb. }
    specialize (Hr eq_refl). rewrite Hb in Hr. rewrite Hs.
    destruct b; by injection Hr as <-.
Qed.

Lemma flagged_convertible : @convertible utc_time flagged_row.
Proof.
  unfold convertible, renders. split; [|split].
  - intros _. vm_compute. split; discriminate.
  - vm_compute. discriminate.
  - vm_compute. discriminate.
Qed.

Lemma convert_dates_converts_booleans_witness :
  heap (world_with flagged_row) !! 1%positive = Some flagged_row
  /\ @convertible utc_time flagged_row
  /\ exists m' : gmap string Value,
       @convert_dates utc_time 1%positive (world_with flagged_row)
       = (Ok 2%positive,
          set_heap (<[2%positive := m']> (heap (world_with flagged_row)))
            (world_with flagged_row))
       /\ m' !! "event_time" = Some (VStr "00:00:00")
       /\ m' !! "event_date" = Some (VStr "1970-01-02").
Proof.
  split; [reflexivity|]. split; [exact flagged_convertible|].
  destruct (@convert_dates_converts_booleans utc_time (world_with flagged_row)
              1%positive flagged_row eq_refl flagged_convertible)
    as (m' & Hrun & Ht & Hd).
  exists m'. split; [exact Hrun|]. split.
  - apply (Ht false). reflexivity.
  - apply (Hd true). reflexivity.
Defined.

(** X3.  The rendering of [event_time] keeps the whole seconds and
    nothing else: hours, minutes and seconds add up to [ms // 1000], with
    minutes and seconds within 0 .. 59 also for a negative [ms], whose hours
    are then negative. *)
Theorem convert_dates_event_time_decomposition `{LocalTime}
    (w : World) (l : positive) (m : gmap string Value) (ms : Z) :
  heap w !! l = Some m ->
  convertible m ->
  m !! "event_time" = Some (VInt ms) ->
  exists m' hours minutes seconds,
    convert_dates l w
      = (Ok (fresh (dom (heap w))),
         set_heap (<[fresh (dom (heap w)) := m']> (heap w)) w)
    /\ m' !! "event_time" = Some (VStr (format_hms hours minutes seconds))
    /\ hours * 3600 + minutes * 60 + seconds = ms / 1000
    /\ 0 <= minutes < 60 /\ 0 <= seconds < 60
    /\ (ms < 0 -> hours < 0).
Proof.
  intros Hl Hconv Hms.
  destruct (convert_dates_returns w l m Hl Hconv) as (m' & Hc & Hrun).
  destruct (converted_rendered m m' "event_time" Hc) as (s & Hs & _ & Hr & _).
  { right. by left. } { by rewrite Hms. }
  specialize (Hr eq_refl). rewrite Hms in Hr. simpl in Hr.
  unfold render_event_time in Hr. injection Hr as <-.
  set (t := ms / 1000) in *.
  exists m', (t / 3600), ((t mod 3600) / 60), (t mod 60).
  split; [done|]. split; [done|].
  pose proof (Z.div_mod t 3600 ltac:(lia)).
  pose proof (Z.mod_pos_bound t 3600 ltac:(lia)).
  pose proof (Z.div_mod (t mod 3600) 60 ltac:(lia)).
  pose proof (Z.mod_pos_bound (t mod 3600) 60 ltac:(lia)).
  pose proof (Z.mod_pos_bound t 60 ltac:(lia)).
  assert (Hmm : (t mod 3600) mod 60 = t mod 60).
  { apply Z.mod_mod_divide. by exists 60. }
  split; [lia|]. split.
  { split; [apply Z.div_pos; lia|]. apply Z.div_lt_upper_bound; lia. }
  split; [lia|].
  intros Hneg.
  assert (t < 0) by (unfold t; apply Z.div_lt_upper_bound; lia).
  apply Z.div_lt_upper_bound; lia.
Qed.

Lemma early_convertible : @convertible utc_time early_row.
Proof. unfold convertible, renders. repeat split; vm_compute; discriminate. Qed.

Lemma convert_dates_event_time_decomposition_witness :
  heap (world_with early_row) !! 1%positive = Some early_row
  /\ @convertible utc_time early_row
  /\ early_row !! "event_time" = Some (VInt (-1))
  /\ exists (m' : gmap string Value) hours minutes seconds,
       m' !! "event_time" = Some (VStr (format_hms hours minutes seconds))
       /\ hours * 3600 + minutes * 60 + seconds = -1
       /\ hours < 0.
Proof.
  split; [reflexivity|]. split; [exact early_convertible|]. split; [reflexivity|].
  destruct (@convert_dates_event_time_decomposition utc_time (world_with early_row)
              1%positive early_row (-1) eq_refl early_convertible eq_refl)
    as (m' & hours & minutes & seconds & _ & Ht & Hsum & _ & _ & Hneg).
  exists m', hours, minutes, seconds. split; [exact Ht|]. split; [exact Hsum|].
  apply Hneg. reflexivity.
Defined.

Lemma send_to_weaviate_raise `{LocalTime} w l (m : gmap string Value) e :
  heap w !! l = Some m -> converted m = Raise e ->
  exists m',
    send_to_weaviate l w
    = (Raise e, set_heap (<[fresh (dom (heap w)) := m']> (heap w)) w).
Proof.
  intros Hl Hc. pose proof (convert_dates_run w l m Hl) as Hrun. simpl in Hrun.
  rewrite Hc in Hrun. destruct Hrun as [m' Hrun]. exists m'.
  unfold send_to_weaviate. unfold bind at 1. by rewrite Hrun.
Qed.

Lemma fresh_not_allocated (w : World) l (m : gmap string Value) :
  heap w !! l = Some m -> fresh (dom (heap w)) ≠ l.
Proof.
  intros Hl Heq. apply (is_fresh (dom (heap w))). rewrite Heq.
  apply elem_of_dom. eauto.
Qed.

(** X4.  [send_to_weaviate] works on a copy: whether it returns or
    raises, the dictionary it was given still has its [id] and every other
    field, and no other object of the store is changed. *)
Theorem send_to_weaviate_leaves_argument `{LocalTime}
    (w : World) (l : positive) (m : gmap string Value) :
  heap w !! l = Some m ->
  forall w', w' = (send_to_weaviate l w).2 ->
  heap w' !! l = Some m
  /\ (forall l0, l0 ∈ dom (heap w) -> heap w' !! l0 = heap w !! l0).
Proof.
  intros Hl w' ->.
  pose proof (fresh_not_allocated w l m Hl) as Hne.
  assert (Hframe : forall (d : gmap string Value) l0,
    l0 ∈ dom (heap w) -> <[fresh (dom (heap w)) := d]> (heap w) !! l0 = heap w !! l0).
  { intros d l0 Hl0. apply lookup_insert_ne. intros <-.
    by apply (is_fresh (dom (heap w))). }
  pose proof (send_to_weaviate_run w l m Hl) as Hrun.
  destruct (converted m) as [c|e] eqn:Hc.
  - rewrite Hrun. unfold posted.
    destruct (weaviate_up w); simpl; rewrite lookup_insert_ne by done; auto.
  - destruct (send_to_weaviate_raise w l m e Hl Hc) as [m' ->]. simpl.
    rewrite lookup_insert_ne by done. auto.
Qed.

Lemma send_to_weaviate_leaves_argument_witness :
  heap (world_with expo_row) !! 1%positive = Some expo_row
  /\ heap (@send_to_weaviate utc_time 1%positive (world_with expo_row)).2 !! 1%positive
     = Some expo_row.
Proof.
  split; [reflexivity|].
  exact (proj1 (@send_to_weaviate_leaves_argument utc_time (world_with expo_row)
                  1%positive expo_row eq_refl _ eq_refl)).
Defined.

(** X5.  A post that cannot reach the index is dropped: for a
    convertible payload [send_to_weaviate] still returns, the index is as
    before, and the one line printed is the error. *)
Theorem send_to_weaviate_unreachable `{LocalTime}
    (w : World) (l : positive) (m : gmap string Value) :
  heap w !! l = Some m ->
  convertible m ->
  weaviate_up w = false ->
  (send_to_weaviate l w).1 = Ok tt
  /\ weaviate (send_to_weaviate l w).2 = weaviate w
  /\ stdout (send_to_weaviate l w).2 = stdout w ++ [LogSendError ConnectionError].
Proof.
  intros Hl Hconv Hup.
  destruct (proj2 (converted_ok_iff m) Hconv) as [c Hc].
  pose proof (send_to_weaviate_run w l m Hl) as Hrun. rewrite Hc in Hrun.
  rewrite Hrun. unfold posted. by rewrite Hup.
Qed.

Lemma send_to_weaviate_unreachable_witness :
  heap (set_weaviate_up false (world_with expo_row)) !! 1%positive = Some expo_row
  /\ @convertible utc_time expo_row
  /\ weaviate_up (set_weaviate_up false (world_with expo_row)) = false
  /\ weaviate (@send_to_weaviate utc_time 1%positive
                 (set_weaviate_up false (world_with expo_row))).2 = [].
Proof.
  split; [reflexivity|]. split; [exact expo_convertible|]. split; [reflexivity|].
  exact (proj1 (proj2 (@send_to_weaviate_unreachable utc_time
    (set_weaviate_up false (world_with expo_row)) 1%positive expo_row
    eq_refl expo_convertible eq_refl))).
Defined.

(** X6.  A message without a row image, or with an empty one, is a
    no-op: nothing is allocated, converted or posted, whether or not the
    index can be reached; only the two lines are printed. *)
Theorem handle_message_without_row `{LocalTime} (message : Message) (w : World) :
  after message = None \/ after message = Some ∅ ->
  (handle_message message w).1 = Ok tt
  /\ heap (handle_message message w).2 = heap w
  /\ weaviate (handle_message message w).2 = weaviate w
  /\ stdout (handle_message message w).2
     = stdout w ++ [LogReceived (after message); LogSkipping].
Proof. intros Ha. by rewrite (handle_message_skip message w Ha). Qed.

Lemma handle_message_without_row_witness :
  after (mkMessage (Some ∅) true) = Some ∅
  /\ weaviate (@handle_message utc_time (mkMessage (Some ∅) true) empty_store).2 = [].
Proof.
  split; [reflexivity|].
  exact (proj1 (proj2 (proj2 (@handle_message_without_row utc_time
    (mkMessage (Some ∅) true) empty_store (or_intror eq_refl))))).
Defined.

Lemma handle_message_document `{LocalTime} (message : Message) w :
  (forall row, after message = Some row -> convertible row) ->
  exists h' out',
    handle_message message w
    = (Ok tt,
       mkWorld h'
         (weaviate w
            ++ stored_from (length (weaviate w)) (option_list (document_of message)))
         (index_reachable message) out').
Proof.
  intros Hconv. unfold document_of.
  destruct (after message) as [row|] eqn:Ha.
  2:{ rewrite (handle_message_skip message w) by auto. rewrite Ha. simpl.
      rewrite app_nil_r. eauto. }
  destruct (decide (row = ∅)) as [->|Hrow].
  { rewrite (handle_message_skip message w) by auto.
    rewrite bool_decide_eq_true_2 by done. simpl. rewrite app_nil_r. eauto. }
  rewrite bool_decide_eq_false_2 by done.
  destruct (proj2 (converted_ok_iff row) (Hconv row eq_refl)) as [c Hc].
  rewrite (handle_message_row message w row Ha Hrow), Hc.
  set (w1 := set_heap _ _).
  assert (Hl : heap w1 !! fresh (dom (heap w)) = Some row) by apply lookup_insert_eq.
  pose proof (send_to_weaviate_run w1 _ row Hl) as Hrun. rewrite Hc in Hrun.
  rewrite Hrun. unfold posted. simpl.
  destruct (index_reachable message); simpl; [eauto|].
  rewrite app_nil_r. eauto.
Qed.

Lemma stored_from_app start (a b : list (gmap string Value)) :
  stored_from start (a ++ b)
  = stored_from start a ++ stored_from (start + length a) b.
Proof.
  revert start. induction a as [|d a IH]; intros start; simpl.
  - by rewrite Nat.add_0_r.
  - rewrite IH. do 3 f_equal. lia.
Qed.

Lemma length_stored_from start (a : list (gmap string Value)) :
  length (stored_from start a) = length a.
Proof. revert start. induction a as [|d a IH]; intros start; simpl; auto. Qed.

Lemma for_each_handle_message `{LocalTime} (stream : list Message) : forall w,
  all_convertible stream ->
  exists w',
    for_each stream handle_message w = (Ok tt, w')
    /\ weaviate w'
       = weaviate w ++ stored_from (length (weaviate w)) (omap document_of stream).
Proof.
  induction stream as [|message stream IH]; intros w Hall; simpl.
  - exists w. by rewrite app_nil_r.
  - destruct (handle_message_document message w) as (h1 & out1 & H1).
    { intros row Ha. apply (Hall message row); [by left | done]. }
    set (w1 := mkWorld h1 _ _ out1) in H1.
    destruct (IH w1) as (w' & Hrest & Hidx).
    { intros m row Hin. apply Hall. by right. }
    exists w'. unfold bind. rewrite H1. split; [done|].
    rewrite Hidx. unfold w1. simpl.
    rewrite length_app, length_stored_from, <- app_assoc. f_equal.
    destruct (document_of message) as [d|]; simpl.
    + do 2 f_equal. lia.
    + by rewrite Nat.add_0_r.
Qed.

(** X7.  When the broker cannot be reached at start-up, [main] prints the
    error and returns normally: it does not raise, retries nothing and
    looks at no message. *)
Theorem main_not_connected `{LocalTime} (stream : list Message) (w : World) :
  main false stream w
  = (Ok tt,
     mkWorld (heap w) (weaviate w) (weaviate_up w)
       (stdout w ++ [LogStarting; LogConnectError])).
Proof.
  unfold main, bind, log, modify. simpl. by rewrite <- app_assoc.
Qed.

(** X8.  On a stream whose rows can all be converted, [main] handles
    every message and returns; the index receives, in stream order and
    under consecutive identities, one document for each message that has a
    non-empty row and arrives while the index can be reached, and nothing
    for the others. *)
Theorem main_indexes_stream `{LocalTime} (stream : list Message) (w : World) :
  all_convertible stream ->
  exists w',
    main true stream w = (Ok tt, w')
    /\ weaviate w'
       = weaviate w ++ stored_from (length (weaviate w)) (omap document_of stream).
Proof.
  intros Hall. unfold main. unfold bind at 1. unfold log at 1, modify.
  unfold bind at 1. unfold log at 1, modify. simpl.
  set (w0 := mkWorld _ _ _ _).
  destruct (for_each_handle_message stream w0 Hall) as (w' & Hrun & Hidx).
  exists w'. split; [done|]. by rewrite Hidx.
Qed.

Lemma decoded_convertible : @convertible utc_time decoded_row.
Proof.
  apply not_int_convertible. intros k [-> | [-> | [-> | ->]]]; reflexivity.
Qed.

Lemma mixed_stream_convertible : @all_convertible utc_time mixed_stream.
Proof.
  intros message row Hin Ha.
  destruct Hin as [<-|[<-|[<-|[<-|[]]]]]; simpl in Ha; try discriminate;
    injection Ha as <-; auto using expo_convertible, decoded_convertible.
Qed.

Lemma main_indexes_stream_witness :
  @all_convertible utc_time mixed_stream
  /\ exists w',
       @main utc_time true mixed_stream empty_store = (Ok tt, w')
       /\ map obj_uuid (weaviate w') = [0%nat; 1%nat]
       /\ map (fun o => obj_properties o !! "postgres_id") (weaviate w')
          = [Some (VInt 7); Some (VInt 9)].
Proof.
  split; [exact mixed_stream_convertible|].
  destruct (@main_indexes_stream utc_time mixed_stream empty_store
              mixed_stream_convertible) as (w' & Hrun & Hidx).
  exists w'. split; [exact Hrun|]. rewrite Hidx. split; reflexivity.
Defined.

(** X9.  The [postgres_id] of the posted document is the row's [id]
    whenever that is truthy, also when the row has a [postgres_id] of its
    own, which is then overwritten; with an absent or falsy [id] the row's
    own [postgres_id], if any, is what is posted. *)
Theorem send_to_weaviate_postgres_id `{LocalTime}
    (w : World) (l : positive) (m : gmap string Value) :
  heap w !! l = Some m ->
  convertible m ->
  weaviate_up w = true ->
  exists properties,
    weaviate (send_to_weaviate l w).2
    = weaviate w ++ [mkIndexObject (length (weaviate w)) WEAVIATE_CLASS properties]
    /\ properties !! "postgres_id"
       = match m !! "id" with
         | Some v => if truthy v then Some v else m !! "postgres_id"
         | None => m !! "postgres_id"
         end.
Proof.
  intros Hl Hconv Hup.
  destruct (proj2 (converted_ok_iff m) Hconv) as [c Hc].
  pose proof (send_to_weaviate_run w l m Hl) as Hrun. rewrite Hc in Hrun.
  exists (cross_referenced c). rewrite Hrun. unfold posted. rewrite Hup.
  split; [done|].
  assert (Hid : c !! "id" = m !! "id").
  { apply (converted_other m c "id" Hc). intros [? | [? | [? | ?]]]; discriminate. }
  assert (Hpg : c !! "postgres_id" = m !! "postgres_id").
  { apply (converted_other m c "postgres_id" Hc).
    intros [? | [? | [? | ?]]]; discriminate. }
  unfold cross_referenced. rewrite Hid.
  destruct (m !! "id") as [v|]; simpl.
  - destruct (truthy v).
    + apply lookup_insert_eq.
    + by rewrite lookup_delete_ne.
  - by rewrite lookup_delete_ne.
Qed.

Lemma relinked_convertible : @convertible utc_time relinked_row.
Proof.
  apply not_int_convertible. intros k [-> | [-> | [-> | ->]]]; reflexivity.
Qed.

Lemma send_to_weaviate_postgres_id_witness :
  heap (world_with relinked_row) !! 1%positive = Some relinked_row
  /\ @convertible utc_time relinked_row
  /\ weaviate_up (world_with relinked_row) = true
  /\ exists properties : gmap string Value,
       map obj_properties
         (weaviate (@send_to_weaviate utc_time 1%positive (world_with relinked_row)).2)
       = [properties]
       /\ properties !! "postgres_id" = Some (VInt 7).
Proof.
  split; [reflexivity|]. split; [exact relinked_convertible|]. split; [reflexivity|].
  destruct (@send_to_weaviate_postgres_id utc_time (world_with relinked_row)
              1%positive relinked_row eq_refl relinked_convertible eq_refl)
    as (properties & Hidx & Hpg).
  exists properties. rewrite Hidx. split; [reflexivity|]. exact Hpg.
Defined.

(** * Further properties of the registration e-mail consumer *)

(** X10.  No exception leaves [process_registration_event], whatever the
    record, the fetched row (missing columns included) and the state of the
    store and the mail transport. *)
Theorem process_registration_event_never_raises
    (message : gmap string Value) (r : Mailroom) :
  (process_registration_event message r).1 = Ok tt.
Proof.
  destruct (decide (message = ∅)) as [->|Hne]; [done|].
  destruct (skipped (record_status message) (record_email_sent message)) eqn:Hs.
  - by rewrite (process_skipped message r Hne Hs).
  - by destruct (process_outcomes message r Hs) as [Hok _].
Qed.




(** The row came back but lacks a column. *)
Lemma process_key_error (message : gmap string Value) r k details dbs e :
  skipped (record_status message) (record_email_sent message) = false ->
  record_id message = VInt k ->
  db_connects r = true :: dbs ->
  registration_details r !! k = Some details ->
  details ≠ ∅ ->
  prepare details = Raise e ->
  process_registration_event message r
  = (Ok tt,
     mkMailroom (event_registrations r) (registration_details r)
       (current_timestamp r) (outbox r) dbs (smtp_connects r) (kafka_connects r)
       (calls r ++ [CallGetRegistrationDetails (VInt k)])
       (logged r ++ [InfoProcessing (VInt k); ErrorProcessingEvent e])).
Proof.
  intros Hs Hid Hdb Hrow Hne Hprep. rewrite (process_run message r Hs).
  rewrite get_registration_details_run, Hid.
  destruct r as [regs view now out dbc smc kc cs lg]. simpl in *. subst dbc.
  simpl. rewrite Hrow. rewrite bool_decide_eq_false_2 by done. rewrite Hprep.
  unfold with_logged. simpl. by rewrite <- app_assoc.
Qed.

(** X12.  A fetched row that lacks a column the mail needs ends the
    processing of the record with a logged error: the mail service is never
    called, nothing is sent and no flag is written. *)
Theorem process_registration_event_missing_column
    (message : gmap string Value) (r : Mailroom) k details dbs e :
  record_status message = VStr "registered" ->
  truthy (record_email_sent message) = false ->
  record_id message = VInt k ->
  db_connects r = true :: dbs ->
  registration_details r !! k = Some details ->
  details ≠ ∅ ->
  prepare details = Raise e ->
  let r' := (process_registration_event message r).2 in
  (process_registration_event message r).1 = Ok tt
  /\ calls r' = calls r ++ [CallGetRegistrationDetails (VInt k)]
  /\ outbox r' = outbox r
  /\ smtp_connects r' = smtp_connects r
  /\ event_registrations r' = event_registrations r
  /\ last (logged r') = Some (ErrorProcessingEvent e).
Proof.
  intros Hst Hes Hid Hdb Hrow Hne Hprep.
  assert (Hgate : skipped (record_status message) (record_email_sent message) = false)
    by by apply not_skipped_iff.
  simpl. rewrite (process_key_error message r k details dbs e); try done.
  simpl. do 5 (split; [done|]).
  replace (logged r ++ [InfoProcessing (VInt k); ErrorProcessingEvent e])
    with ((logged r ++ [InfoProcessing (VInt k)]) ++ [ErrorProcessingEvent e])
    by (by rewrite <- app_assoc).
  apply last_snoc.
Qed.

Lemma process_registration_event_missing_column_witness :
  record_status (registered_record 5) = VStr "registered"
  /\ truthy (record_email_sent (registered_record 5)) = false
  /\ record_id (registered_record 5) = VInt 5
  /\ db_connects nameless_mailroom = true :: [true]
  /\ registration_details nameless_mailroom !! 5 = Some nameless_details
  /\ nameless_details ≠ ∅
  /\ prepare nameless_details = Raise (KeyError "username")
  /\ outbox (process_registration_event (registered_record 5) nameless_mailroom).2 = []
  /\ smtp_connects (process_registration_event (registered_record 5) nameless_mailroom).2
     = [true].
Proof.
  assert (Hne : nameless_details ≠ ∅).
  { intros Heq. apply (f_equal (fun d => d !! "email")) in Heq. discriminate. }
  do 5 (split; [reflexivity|]). split; [exact Hne|]. split; [reflexivity|].
  destruct (process_registration_event_missing_column (registered_record 5)
              nameless_mailroom 5 nameless_details [true] (KeyError "username")
              eq_refl eq_refl eq_refl eq_refl eq_refl Hne eq_refl)
    as (_ & _ & Hout & Hsmtp & _).
  split; [exact Hout | exact Hsmtp].
Defined.

(** The record passed the gate, the row was fetched and the mail went
    out; the flag write reached the store or not. *)
Lemma process_sent (message : gmap string Value) r k details dbs ss ue un ed mail :
  skipped (record_status message) (record_email_sent message) = false ->
  record_id message = VInt k ->
  db_connects r = true :: dbs ->
  smtp_connects r = true :: ss ->
  registration_details r !! k = Some details ->
  prepare details = Ok (ue, un, ed) ->
  confirmation ue un ed = Ok mail ->
  process_registration_event message r
  = (Ok tt,
     mkMailroom
       (match dbs with
        | true :: _ =>
            alter (fun _ => mkRegistration true (Some (current_timestamp r))) k
              (event_registrations r)
        | _ => event_registrations r
        end)
       (registration_details r) (current_timestamp r)
       (outbox r ++ [mail])
       (tail dbs) ss (kafka_connects r)
       (calls r ++ [CallGetRegistrationDetails (VInt k);
                    CallSendRegistrationConfirmation ue un;
                    CallMarkEmailSent (VInt k)])
       (logged r ++ [InfoProcessing (VInt k); InfoEmailSent ue;
                     match dbs with
                     | true :: _ => InfoMarked (VInt k)
                     | _ => ErrorMark ConnectionError
                     end;
                     InfoProcessed (VInt k)])).
Proof.
  intros Hs Hid Hdb Hsmtp Hrow Hprep Hmail.
  pose proof (prepare_not_empty _ _ Hprep) as Hne.
  rewrite (process_run message r Hs).
  rewrite get_registration_details_run, Hid.
  destruct r as [regs view now out dbc smc kc cs lg]. simpl in *. subst dbc smc.
  simpl. rewrite Hrow. rewrite bool_decide_eq_false_2 by done. rewrite Hprep.
  rewrite send_registration_confirmation_run, Hmail. simpl.
  rewrite mark_email_sent_run. simpl.
  destruct dbs as [|[] dbs']; unfold with_logged; simpl;
    by rewrite <- !app_assoc.
Qed.

(** X13.  When the mail went out but the store refuses the connection for
    the flag write, the failure is logged and ignored: the record counts as
    processed, the mail stays sent and the registration row keeps its
    flag unset. *)
Theorem flag_write_failure_is_ignored
    (message : gmap string Value) (r : Mailroom) k details dbs ss ue un ed mail :
  record_status message = VStr "registered" ->
  truthy (record_email_sent message) = false ->
  record_id message = VInt k ->
  db_connects r = true :: dbs ->
  (forall dbs', dbs ≠ true :: dbs') ->
  smtp_connects r = true :: ss ->
  registration_details r !! k = Some details ->
  prepare details = Ok (ue, un, ed) ->
  confirmation ue un ed = Ok mail ->
  let r' := (process_registration_event message r).2 in
  outbox r' = outbox r ++ [mail]
  /\ event_registrations r' = event_registrations r
  /\ logged r'
     = logged r ++ [InfoProcessing (VInt k); InfoEmailSent ue;
                    ErrorMark ConnectionError; InfoProcessed (VInt k)].
Proof.
  intros Hst Hes Hid Hdb Hno Hsmtp Hrow Hprep Hmail.
  assert (Hgate : skipped (record_status message) (record_email_sent message) = false)
    by by apply not_skipped_iff.
  simpl. rewrite (process_sent message r k details dbs ss ue un ed mail); try done.
  simpl. destruct dbs as [|[] dbs']; [done| |done]. by destruct (Hno dbs').
Qed.

Lemma expo_prepared :
  prepare expo_details
  = Ok (SqlText "ann@example.org", SqlText "ann", expo_event_details).
Proof. vm_compute. reflexivity. Qed.

Lemma expo_confirmation :
  confirmation (SqlText "ann@example.org") (SqlText "ann") expo_event_details
  = Ok expo_mail.
Proof. vm_compute. reflexivity. Qed.

Lemma flag_write_failure_is_ignored_witness :
  record_status (registered_record 5) = VStr "registered"
  /\ truthy (record_email_sent (registered_record 5)) = false
  /\ record_id (registered_record 5) = VInt 5
  /\ db_connects flaky_mailroom = true :: [false]
  /\ (forall dbs', [false] ≠ true :: dbs')
  /\ smtp_connects flaky_mailroom = true :: []
  /\ registration_details flaky_mailroom !! 5 = Some expo_details
  /\ outbox (process_registration_event (registered_record 5) flaky_mailroom).2
     = [expo_mail]
  /\ event_registrations (process_registration_event (registered_record 5) flaky_mailroom).2
     = event_registrations flaky_mailroom.
Proof.
  do 4 (split; [reflexivity|]). split; [by intros dbs'|].
  do 2 (split; [reflexivity|]).
  destruct (flag_write_failure_is_ignored (registered_record 5) flaky_mailroom 5
              expo_details [false] [] _ _ _ expo_mail
              eq_refl eq_refl eq_refl eq_refl (fun dbs' H => ltac:(discriminate H))
              eq_refl eq_refl expo_prepared expo_confirmation)
    as (Hout & Hregs & _).
  split; [exact Hout | exact Hregs].
Defined.

(** X14.  The consumer never reads the flag from the store: when the same
    record, with [email_sent] false in its payload, is delivered again
    after a successful send and flag write, a second mail goes out although
    the row's flag is already true. *)
Theorem redelivered_record_is_sent_again
    (message : gmap string Value) (r : Mailroom) k details dbs ss ue un ed mail :
  record_status message = VStr "registered" ->
  truthy (record_email_sent message) = false ->
  record_id message = VInt k ->
  db_connects r = true :: true :: true :: true :: dbs ->
  smtp_connects r = true :: true :: ss ->
  registration_details r !! k = Some details ->
  prepare details = Ok (ue, un, ed) ->
  confirmation ue un ed = Ok mail ->
  let r1 := (process_registration_event message r).2 in
  let r2 := (process_registration_event message r1).2 in
  outbox r1 = outbox r ++ [mail]
  /\ event_registrations r1 !! k
     = (fun _ => mkRegistration true (Some (current_timestamp r)))
         <$> event_registrations r !! k
  /\ outbox r2 = outbox r ++ [mail; mail].
Proof.
  intros Hst Hes Hid Hdb Hsmtp Hrow Hprep Hmail.
  assert (Hgate : skipped (record_status message) (record_email_sent message) = false)
    by by apply not_skipped_iff.
  simpl.
  rewrite (process_sent message r k details _ _ ue un ed mail Hgate Hid Hdb Hsmtp
             Hrow Hprep Hmail).
  simpl. split; [done|]. split; [apply lookup_alter_eq|].
  erewrite (process_sent message _ k details _ _ ue un ed mail Hgate Hid); simpl;
    [|reflexivity|reflexivity|done|done|done].
  by rewrite <- app_assoc.
Qed.

Lemma redelivered_record_is_sent_again_witness :
  record_status (registered_record 5) = VStr "registered"
  /\ truthy (record_email_sent (registered_record 5)) = false
  /\ record_id (registered_record 5) = VInt 5
  /\ db_connects steady_mailroom = true :: true :: true :: true :: []
  /\ smtp_connects steady_mailroom = true :: true :: []
  /\ registration_details steady_mailroom !! 5 = Some expo_details
  /\ outbox
       (process_registration_event (registered_record 5)
          (process_registration_event (registered_record 5) steady_mailroom).2).2
     = [expo_mail; expo_mail].
Proof.
  do 6 (split; [reflexivity|]).
  destruct (redelivered_record_is_sent_again (registered_record 5) steady_mailroom 5
              expo_details [] [] _ _ _ expo_mail
              eq_refl eq_refl eq_refl eq_refl eq_refl eq_refl
              expo_prepared expo_confirmation)
    as (_ & _ & Hout).
  exact Hout.
Defined.

(** X15.  With the store reachable, [mark_email_sent] reports success
    whether or not a row has the id: an existing row gets the flag and the
    store's timestamp, an absent one stays absent, and no other row and no
    mail is touched. *)
Theorem mark_email_sent_one_row (k : Z) (r : Mailroom) dbs :
  db_connects r = true :: dbs ->
  let r' := (mark_email_sent (VInt k) r).2 in
  (mark_email_sent (VInt k) r).1 = Ok true
  /\ event_registrations r' !! k
     = (fun _ => mkRegistration true (Some (current_timestamp r)))
         <$> event_registrations r !! k
  /\ (forall j, j ≠ k -> event_registrations r' !! j = event_registrations r !! j)
  /\ outbox r' = outbox r
  /\ db_connects r' = dbs.
Proof.
  intros Hdb. simpl. rewrite mark_email_sent_run, Hdb. simpl.
  split; [done|]. split; [apply lookup_alter_eq|]. split; [|done].
  intros j Hj. by apply lookup_alter_ne.
Qed.

Lemma mark_email_sent_one_row_witness :
  db_connects expo_mailroom = true :: [true]
  /\ (mark_email_sent (VInt 6) expo_mailroom).1 = Ok true
  /\ event_registrations (mark_email_sent (VInt 6) expo_mailroom).2 !! 6 = None
  /\ event_registrations (mark_email_sent (VInt 6) expo_mailroom).2 !! 5
     = Some (mkRegistration false None).
Proof.
  split; [reflexivity|].
  destruct (mark_email_sent_one_row 6 expo_mailroom [true] eq_refl)
    as (Hok & Hk & Hj & _).
  split; [exact Hok|]. split; [exact Hk|]. by rewrite Hj.
Defined.

(** When the store cannot be reached the flag write reports failure and
    changes nothing but the log. *)
Lemma mark_email_sent_unreachable registration_id r :
  (forall dbs, db_connects r ≠ true :: dbs) ->
  (mark_email_sent registration_id r).1 = Ok false
  /\ event_registrations (mark_email_sent registration_id r).2 = event_registrations r.
Proof.
  intros Hno. rewrite mark_email_sent_run.
  destruct (db_connects r) as [|[] dbs] eqn:Hdb; [done| |done].
  by destruct (Hno dbs).
Qed.

(** X16.  [send_registration_confirmation] never raises and answers
    [True] exactly when one mail was added to what the transport accepted;
    event details without a [title] make it answer [False] before the
    transport is contacted. *)
Theorem send_registration_confirmation_result
    (user_email user_name : SqlValue) (event_details : gmap string SqlValue)
    (r : Mailroom) :
  let run := send_registration_confirmation user_email user_name event_details r in
  (exists sent, run.1 = Ok sent
     /\ (sent = true <-> exists mail, outbox run.2 = outbox r ++ [mail])
     /\ (sent = false -> outbox run.2 = outbox r))
  /\ (event_details !! "title" = None ->
      run.1 = Ok false /\ smtp_connects run.2 = smtp_connects r)
  /\ event_registrations run.2 = event_registrations r.
Proof.
  simpl. rewrite send_registration_confirmation_run.
  assert (Hgrow : forall mail : Email, outbox r ≠ outbox r ++ [mail]).
  { intros mail Heq. apply (f_equal length) in Heq.
    rewrite length_app in Heq. simpl in Heq. lia. }
  split; [|split].
  - destruct (confirmation _ _ _) as [mail|e];
      [destruct (smtp_connects r) as [|[] ss]|]; simpl.
    + exists false. split; [done|]. split; [|done].
      split; [done|]. intros [mail' Hm]. by apply Hgrow in Hm.
    + exists true. split; [done|]. split; [|done]. split; [eauto|done].
    + exists false. split; [done|]. split; [|done].
      split; [done|]. intros [mail' Hm]. by apply Hgrow in Hm.
    + exists false. split; [done|]. split; [|done].
      split; [done|]. intros [mail' Hm]. by apply Hgrow in Hm.
  - intros Ht. unfold confirmation, lookup_key, and_then. by rewrite Ht.
  - destruct (confirmation _ _ _) as [mail|e];
      [destruct (smtp_connects r) as [|[] ss]|]; done.
Qed.

Lemma send_registration_confirmation_result_witness :
  (∅ : gmap string SqlValue) !! "title" = None
  /\ (send_registration_confirmation (SqlText "ann@example.org") (SqlText "ann") ∅
        expo_mailroom).1 = Ok false
  /\ smtp_connects
       (send_registration_confirmation (SqlText "ann@example.org") (SqlText "ann") ∅
          expo_mailroom).2 = [true].
Proof.
  split; [reflexivity|].
  exact (proj1 (proj2 (send_registration_confirmation_result
    (SqlText "ann@example.org") (SqlText "ann") ∅ expo_mailroom)) eq_refl).
Defined.

(** A mail in the outbox comes from a fetched row. *)
Lemma sent_mail_inv (message : gmap string Value) r mail :
  skipped (record_status message) (record_email_sent message) = false ->
  outbox (process_registration_event message r).2 = outbox r ++ [mail] ->
  exists k details ue un ed,
    record_id message = VInt k
    /\ registration_details r !! k = Some details
    /\ prepare details = Ok (ue, un, ed)
    /\ confirmation ue un ed = Ok mail.
Proof.
  intros Hgate Hbox.
  destruct (process_outcomes message r Hgate) as [_ [(Hsame & _)|Hsent]].
  { exfalso. rewrite Hsame in Hbox. apply (f_equal length) in Hbox.
    rewrite length_app in Hbox. simpl in Hbox. lia. }
  destruct Hsent as (k & details & ue & un & ed & mail' & dbs & ss & Hsent).
  destruct Hsent as (Hid & _ & _ & Hrow & Hprep & Hmail & Hbox' & _).
  rewrite Hbox' in Hbox. apply app_inv_head in Hbox. injection Hbox as ->.
  exists k, details, ue, un, ed. auto.
Qed.

(** X17.  In a mail that was sent, title, location, category and organizer
    are [str] of the fetched columns, and the recipient is the [email]
    column: a NULL column reads [None], because the event details always
    carry the key and the template's defaults apply to absent keys only. *)
Theorem mail_fields_are_the_columns
    (message : gmap string Value) (r : Mailroom) (mail : Email) :
  record_status message = VStr "registered" ->
  truthy (record_email_sent message) = false ->
  outbox (process_registration_event message r).2 = outbox r ++ [mail] ->
  exists k details title location category organizer user_email,
    record_id message = VInt k
    /\ registration_details r !! k = Some details
    /\ details !! "event_title" = Some title
    /\ details !! "event_location" = Some location
    /\ details !! "event_category" = Some category
    /\ details !! "organizer" = Some organizer
    /\ details !! "email" = Some user_email
    /\ mail_to mail = user_email
    /\ mail_subject mail = "✅ Registration Confirmed: " +:+ py_str title
    /\ body_title (mail_html mail) = py_str title
    /\ body_location (mail_html mail) = py_str location
    /\ body_category (mail_html mail) = py_str category
    /\ body_organizer (mail_html mail) = py_str organizer
    /\ (location = SqlNull -> body_location (mail_html mail) = "None").
Proof.
  intros Hst Hes Hbox.
  assert (Hgate : skipped (record_status message) (record_email_sent message) = false)
    by by apply not_skipped_iff.
  destruct (sent_mail_inv message r mail Hgate Hbox)
    as (k & details & ue & un & ed & Hid & Hrow & Hprep & Hmail).
  destruct (prepare_inv _ _ _ _ Hprep)
    as (title & description & category & location & event_date & event_time
        & organizer & full_name & Ht & _ & Hc & Hl & _ & _ & Ho & He & _ & _ & Hed).
  exists k, details, title, location, category, organizer, ue.
  do 7 (split; [done|]).
  unfold confirmation, lookup_key, and_then in Hmail. subst ed.
  rewrite lookup_insert_eq in Hmail. injection Hmail as <-. simpl.
  unfold get_default. simpl.
  do 6 (split; [done|]). by intros ->.
Qed.

(** X18.  The date and time line of a sent mail shows the date alone
    when only the time is missing, and [Date and time to be announced] when
    the date is missing, also if a time is known. *)
Theorem mail_datetime_one_missing
    (message : gmap string Value) (r : Mailroom) (mail : Email) :
  record_status message = VStr "registered" ->
  truthy (record_email_sent message) = false ->
  outbox (process_registration_event message r).2 = outbox r ++ [mail] ->
  exists k details event_date event_time,
    record_id message = VInt k
    /\ registration_details r !! k = Some details
    /\ details !! "event_date" = Some event_date
    /\ details !! "event_time" = Some event_time
    /\ (forall d, event_date = SqlDate d -> event_time = SqlNull ->
          body_datetime (mail_html mail) = strftime_Ymd d)
    /\ (event_date = SqlNull ->
          body_datetime (mail_html mail) = "Date and time to be announced").
Proof.
  intros Hst Hes Hbox.
  assert (Hgate : skipped (record_status message) (record_email_sent message) = false)
    by by apply not_skipped_iff.
  destruct (sent_mail_inv message r mail Hgate Hbox)
    as (k & details & ue & un & ed & Hid & Hrow & Hprep & Hmail).
  destruct (prepare_inv _ _ _ _ Hprep)
    as (title & description & category & location & event_date & event_time
        & organizer & full_name & _ & _ & _ & _ & Hd & Ht & _ & _ & _ & _ & Hed).
  destruct (confirmation_inv _ _ _ _ Hmail) as (_ & _ & Hdt).
  exists k, details, event_date, event_time. do 4 (split; [done|]).
  assert (Hed_d : ed !! "event_date" = Some (or_tbd event_date)) by by rewrite Hed.
  assert (Hed_t : ed !! "event_time" = Some (or_tbd event_time)) by by rewrite Hed.
  rewrite Hdt. unfold formatted_datetime, get_default. rewrite Hed_d, Hed_t.
  split.
  - intros d -> ->. unfold or_tbd. simpl.
    by rewrite (bool_decide_eq_false_2 _ (date_str_not_tbd d)).
  - by intros ->.
Qed.

(** X19.  A sent mail has a description block exactly when the fetched
    description is neither NULL nor empty, and the block is that text. *)
Theorem mail_description_block
    (message : gmap string Value) (r : Mailroom) (mail : Email) :
  record_status message = VStr "registered" ->
  truthy (record_email_sent message) = false ->
  outbox (process_registration_event message r).2 = outbox r ++ [mail] ->
  exists k details description,
    record_id message = VInt k
    /\ registration_details r !! k = Some details
    /\ details !! "event_description" = Some description
    /\ body_description (mail_html mail)
       = (if sql_truthy description then Some (py_str description) else None)
    /\ (description = SqlNull \/ description = SqlText "" ->
          body_description (mail_html mail) = None)
    /\ (forall s, description = SqlText s -> s ≠ "" ->
          body_description (mail_html mail) = Some s).
Proof.
  intros Hst Hes Hbox.
  assert (Hgate : skipped (record_status message) (record_email_sent message) = false)
    by by apply not_skipped_iff.
  destruct (sent_mail_inv message r mail Hgate Hbox)
    as (k & details & ue & un & ed & Hid & Hrow & Hprep & Hmail).
  destruct (prepare_inv _ _ _ _ Hprep)
    as (title & description & category & location & event_date & event_time
        & organizer & full_name & _ & Hdesc & _ & _ & _ & _ & _ & _ & _ & _ & Hed).
  exists k, details, description. do 3 (split; [done|]).
  unfold confirmation, lookup_key, and_then in Hmail. subst ed.
  rewrite lookup_insert_eq in Hmail. injection Hmail as <-. simpl.
  unfold get_default. simpl.
  split; [done|]. split.
  - by intros [-> | ->].
  - intros s -> Hs. by destruct s.
Qed.

Lemma bare_outbox :
  outbox (process_registration_event (registered_record 5) bare_mailroom).2
  = outbox bare_mailroom ++ [bare_mail].
Proof. vm_compute. reflexivity. Qed.

Lemma mail_fields_are_the_columns_witness :
  record_status (registered_record 5) = VStr "registered"
  /\ truthy (record_email_sent (registered_record 5)) = false
  /\ outbox (process_registration_event (registered_record 5) bare_mailroom).2
     = outbox bare_mailroom ++ [bare_mail]
  /\ body_location (mail_html bare_mail) = "None".
Proof.
  split; [reflexivity|]. split; [reflexivity|]. split; [exact bare_outbox|].
  destruct (mail_fields_are_the_columns (registered_record 5) bare_mailroom bare_mail
              eq_refl eq_refl bare_outbox)
    as (k & details & title & location & category & organizer & user_email
        & Hid & Hrow & _ & Hloc & _ & _ & _ & _ & _ & _ & _ & _ & _ & Hnull).
  injection Hid as <-. injection Hrow as <-. apply Hnull.
  by injection Hloc as <-.
Defined.

Lemma mail_datetime_one_missing_witness :
  record_status (registered_record 5) = VStr "registered"
  /\ truthy (record_email_sent (registered_record 5)) = false
  /\ outbox (process_registration_event (registered_record 5) bare_mailroom).2
     = outbox bare_mailroom ++ [bare_mail]
  /\ body_datetime (mail_html bare_mail) = strftime_Ymd (mkDate 2024 10 4).
Proof.
  split; [reflexivity|]. split; [reflexivity|]. split; [exact bare_outbox|].
  destruct (mail_datetime_one_missing (registered_record 5) bare_mailroom bare_mail
              eq_refl eq_refl bare_outbox)
    as (k & details & event_date & event_time & Hid & Hrow & Hd & Ht & Hdate & _).
  injection Hid as <-. injection Hrow as <-.
  apply Hdate; [by injection Hd as <- | by injection Ht as <-].
Defined.

Lemma mail_description_block_witness :
  record_status (registered_record 5) = VStr "registered"
  /\ truthy (record_email_sent (registered_record 5)) = false
  /\ outbox (process_registration_event (registered_record 5) bare_mailroom).2
     = outbox bare_mailroom ++ [bare_mail]
  /\ body_description (mail_html bare_mail) = None.
Proof.
  split; [reflexivity|]. split; [reflexivity|]. split; [exact bare_outbox|].
  destruct (mail_description_block (registered_record 5) bare_mailroom bare_mail
              eq_refl eq_refl bare_outbox)
    as (k & details & description & Hid & Hrow & Hdesc & _ & Hnone & _).
  injection Hid as <-. injection Hrow as <-. apply Hnone. right.
  by injection Hdesc as <-.
Defined.

Lemma connect_kafka_from_late n : forall a len r ks,
  (n < len)%nat -> (a + len = max_retries)%nat ->
  kafka_connects r = replicate n false ++ true :: ks ->
  connect_kafka_from (seq a len) r
  = (Ok tt,
     mkMailroom (event_registrations r) (registration_details r)
       (current_timestamp r) (outbox r) (db_connects r) (smtp_connects r)
       ks (calls r)
       (logged r ++ map WarnKafkaNotAvailable (seq (a + 1) n) ++ [InfoConnected])).
Proof.
  unfold max_retries.
  induction n as [|n IH]; intros a len r ks Hn Ha Hk;
    (destruct len as [|len]; [lia|]); simpl seq;
    destruct r as [regs view now out dbc smc kc cs lg]; simpl in Hk; subst kc.
  - reflexivity.
  - unfold connect_kafka_from; fold connect_kafka_from.
    unfold bind at 1. unfold kafka_consumer at 1. simpl.
    unfold bind at 1. rewrite logger_run.
    replace (a <? 9)%nat with true by (symmetry; apply Nat.ltb_lt; lia).
    rewrite (IH (S a) len _ ks); [|lia|lia|reflexivity].
    unfold with_logged. simpl. rewrite <- app_assoc. simpl.
    by replace (S a + 1)%nat with (S (a + 1)) by lia.
Qed.

Lemma connect_kafka_from_exhausted len : forall a r ks,
  (a + S len = max_retries)%nat ->
  kafka_connects r = replicate (S len) false ++ ks ->
  connect_kafka_from (seq a (S len)) r
  = (Raise NoBrokersAvailable,
     mkMailroom (event_registrations r) (registration_details r)
       (current_timestamp r) (outbox r) (db_connects r) (smtp_connects r)
       ks (calls r)
       (logged r ++ map WarnKafkaNotAvailable (seq (a + 1) (S len)))).
Proof.
  unfold max_retries.
  induction len as [|len IH]; intros a r ks Ha Hk;
    destruct r as [regs view now out dbc smc kc cs lg]; simpl in Hk; subst kc.
  - assert (a = 9%nat) as -> by lia. reflexivity.
  - change (seq a (S (S len))) with (a :: seq (S a) (S len)).
    unfold connect_kafka_from; fold connect_kafka_from.
    unfold bind at 1. unfold kafka_consumer at 1. simpl.
    unfold bind at 1. rewrite logger_run.
    replace (a <? 9)%nat with true by (symmetry; apply Nat.ltb_lt; lia).
    etrans;
      [exact (IH (S a)
                (with_logged [WarnKafkaNotAvailable (a + 1)]
                   (mkMailroom regs view now out dbc smc
                      (replicate (S len) false ++ ks) cs lg))
                ks ltac:(lia) eq_refl)|].
    unfold with_logged. simpl. rewrite <- app_assoc. simpl.
    by replace (S a + 1)%nat with (S (a + 1)) by lia.
Qed.

(** X20.  [connect_kafka] tries at most ten times: if the broker accepts
    after [n < 10] refusals it returns after [n + 1] attempts with [n]
    warnings, numbered from 1; ten refusals in a row make it raise
    [NoBrokersAvailable] after the tenth, without an eleventh attempt. *)
Theorem connect_kafka_bounded_retry (r : Mailroom) (n : nat) (ks : list bool) :
  ((n < 10)%nat ->
   kafka_connects r = replicate n false ++ true :: ks ->
   (connect_kafka r).1 = Ok tt
   /\ kafka_connects (connect_kafka r).2 = ks
   /\ logged (connect_kafka r).2 = logged r ++ refusals n ++ [InfoConnected])
  /\ (kafka_connects r = replicate 10 false ++ ks ->
      (connect_kafka r).1 = Raise NoBrokersAvailable
      /\ kafka_connects (connect_kafka r).2 = ks
      /\ logged (connect_kafka r).2 = logged r ++ refusals 10).
Proof.
  unfold connect_kafka, max_retries. split.
  - intros Hn Hk.
    by rewrite (connect_kafka_from_late n 0 10 r ks Hn eq_refl Hk).
  - intros Hk.
    by rewrite (connect_kafka_from_exhausted 9 0 r ks eq_refl Hk).
Qed.

Lemma connect_kafka_bounded_retry_witness :
  (3 < 10)%nat
  /\ kafka_connects (late_broker 3) = replicate 3 false ++ true :: []
  /\ (connect_kafka (late_broker 3)).1 = Ok tt
  /\ logged (connect_kafka (late_broker 3)).2
     = [WarnKafkaNotAvailable 1; WarnKafkaNotAvailable 2; WarnKafkaNotAvailable 3;
        InfoConnected].
Proof.
  split; [lia|]. split; [reflexivity|].
  destruct (proj1 (connect_kafka_bounded_retry (late_broker 3) 3 [])
              ltac:(lia) eq_refl) as (Hok & _ & Hlog).
  split; [exact Hok | exact Hlog].
Defined.



Lemma converted_again `{LocalTime} (m c : gmap string Value) :
  converted m = Ok c -> converted c = Ok c.
Proof.
  intros Hc. apply converted_id. intros k Hk. by apply (converted_done m).
Qed.

(** X22.  Converting before posting changes nothing: a row and the result
    of [convert_dates] on it lead [send_to_weaviate] to post the same
    document, so a connector that already decodes the temporal columns
    yields the same index content. *)
Theorem send_to_weaviate_same_document_when_decoded `{LocalTime}
    (w1 w2 : World) (l1 l2 : positive) (m c : gmap string Value) :
  heap w1 !! l1 = Some m ->
  heap w2 !! l2 = Some c ->
  converted m = Ok c ->
  weaviate_up w1 = true ->
  weaviate_up w2 = true ->
  exists properties,
    (send_to_weaviate l1 w1).1 = Ok tt
    /\ (send_to_weaviate l2 w2).1 = Ok tt
    /\ weaviate (send_to_weaviate l1 w1).2
       = weaviate w1 ++ [mkIndexObject (length (weaviate w1)) WEAVIATE_CLASS properties]
    /\ weaviate (send_to_weaviate l2 w2).2
       = weaviate w2 ++ [mkIndexObject (length (weaviate w2)) WEAVIATE_CLASS properties].
Proof.
  intros Hl1 Hl2 Hc Hup1 Hup2.
  pose proof (send_to_weaviate_run w1 l1 m Hl1) as Hrun1. rewrite Hc in Hrun1.
  pose proof (send_to_weaviate_run w2 l2 c Hl2) as Hrun2.
  rewrite (converted_again m c Hc) in Hrun2.
  exists (cross_referenced c). rewrite Hrun1, Hrun2. unfold posted.
  by rewrite Hup1, Hup2.
Qed.

Lemma expo_converted_decoded :
  @converted utc_time expo_row
  = Ok (<["event_date" := VStr "2024-10-04"]>
        (<["event_time" := VStr "09:30:00"]>
        (<["created_at" := VStr "2023-11-14 22:13:20"]> expo_row))).
Proof. vm_compute. reflexivity. Qed.

Lemma send_to_weaviate_same_document_when_decoded_witness :
  let c := <["event_date" := VStr "2024-10-04"]>
           (<["event_time" := VStr "09:30:00"]>
           (<["created_at" := VStr "2023-11-14 22:13:20"]> expo_row)) in
  heap (world_with expo_row) !! 1%positive = Some expo_row
  /\ heap (world_with c) !! 1%positive = Some c
  /\ @converted utc_time expo_row = Ok c
  /\ map obj_properties
       (weaviate (@send_to_weaviate utc_time 1%positive (world_with expo_row)).2)
     = map obj_properties
         (weaviate (@send_to_weaviate utc_time 1%positive (world_with c)).2).
Proof.
  intros c. split; [reflexivity|]. split; [reflexivity|].
  split; [exact expo_converted_decoded|].
  destruct (@send_to_weaviate_same_document_when_decoded utc_time
              (world_with expo_row) (world_with c) 1%positive 1%positive expo_row c
              eq_refl eq_refl expo_converted_decoded eq_refl eq_refl)
    as (properties & _ & _ & H1 & H2).
  rewrite H1, H2. reflexivity.
Defined.

(** X23.  The gate reads absent fields by their defaults: a record
    without a [status] is skipped like any status other than [registered],
    and a [registered] record whose [email_sent] is absent or null
    proceeds to the fetch like one whose flag is false. *)
Theorem gate_defaults (message : gmap string Value) (r : Mailroom) :
  message ≠ ∅ ->
  (message !! "status" = None ->
     calls (process_registration_event message r).2 = calls r
     /\ outbox (process_registration_event message r).2 = outbox r
     /\ db_connects (process_registration_event message r).2 = db_connects r)
  /\ (message !! "status" = Some (VStr "registered") ->
      message !! "email_sent" = None \/ message !! "email_sent" = Some VNull ->
      exists more,
        calls (process_registration_event message r).2
        = calls r ++ CallGetRegistrationDetails (record_id message) :: more).
Proof.
  intros Hne. split.
  - intros Hst.
    assert (Hs : skipped (record_status message) (record_email_sent message) = true).
    { unfold record_status, get_default. by rewrite Hst. }
    by rewrite (process_skipped message r Hne Hs).
  - intros Hst Hes.
    assert (Hgate : skipped (record_status message) (record_email_sent message) = false).
    { unfold record_status, record_email_sent, get_default. rewrite Hst.
      by destruct Hes as [-> | ->]. }
    destruct (process_outcomes message r Hgate)
      as [_ [(_ & _ & [Hc|(ue & un & Hc)])|Hsent]].
    + rewrite Hc. eauto.
    + rewrite Hc. eauto.
    + destruct Hsent as (k & details & ue & un & ed & mail & dbs & ss & Hsent).
      destruct Hsent as (_ & _ & _ & _ & _ & _ & _ & Hc & _). rewrite Hc. eauto.
Qed.

Lemma gate_defaults_witness :
  unflagged_record 5 ≠ ∅
  /\ unflagged_record 5 !! "status" = Some (VStr "registered")
  /\ unflagged_record 5 !! "email_sent" = Some VNull
  /\ exists more,
       calls (process_registration_event (unflagged_record 5) expo_mailroom).2
       = calls expo_mailroom ++ CallGetRegistrationDetails (VInt 5) :: more.
Proof.
  assert (Hne : unflagged_record 5 ≠ ∅) by apply insert_non_empty.
  split; [exact Hne|]. split; [reflexivity|]. split; [reflexivity|].
  exact (proj2 (gate_defaults (unflagged_record 5) expo_mailroom Hne)
           eq_refl (or_intror eq_refl)).
Defined.
